(** * rpaas: the Consul configuration manager ([rpaas/consul_manager.py])

    A shallow embedding of [ConsulManager] and of the Python string and
    key-value operations it relies on, followed by the properties of the
    store's framing, upstream, swap, ACL and certificate operations. *)

From Stdlib Require Import Ascii String List Arith Lia NArith DecimalString.
From stdpp Require Import base gmap sets list strings.

Local Open Scope stdpp_scope.

(** ** Python byte strings

    The code base is Python 2: [str] is a byte string, modelled as
    [string] (a list of 8-bit characters).  Each method is written out
    with the behaviour of the interpreter. *)

Module PyStr.

Definition LF : string := String "010" "".
Definition CR : string := String "013" "".

(** [sub in s] *)
Fixpoint str_in (sub s : string) {struct s} : bool :=
  String.prefix sub s ||
  match s with
  | EmptyString => false
  | String _ s' => str_in sub s'
  end.

(** [s.find(sub)], with [None] for [-1] *)
Fixpoint str_find (sub s : string) {struct s} : option nat :=
  if String.prefix sub s then Some 0
  else match s with
       | EmptyString => None
       | String _ s' => S <$> str_find sub s'
       end.

(** [s.replace(old, new)] for a non-empty [old]: a left-to-right scan
    over non-overlapping occurrences; [skip] counts the characters of
    the occurrence just replaced that are still to be dropped. *)
Fixpoint replace_from (old new : string) (skip : nat) (s : string) : string :=
  match s with
  | EmptyString => EmptyString
  | String c s' =>
    match skip with
    | S k => replace_from old new k s'
    | O =>
      if String.prefix old s
      then new +:+ replace_from old new (String.length old - 1) s'
      else String c (replace_from old new 0 s')
    end
  end.

(** [s.replace("", new)] puts [new] before every character and at the end. *)
Fixpoint replace_empty (new s : string) : string :=
  match s with
  | EmptyString => new
  | String c s' => new +:+ String c (replace_empty new s')
  end.

Definition replace (old new s : string) : string :=
  match old with
  | EmptyString => replace_empty new s
  | String _ _ => replace_from old new 0 s
  end.

(** [s.strip()]: the whitespace of a byte string is
    space, tab, newline, return, vertical tab and form feed. *)
Fixpoint lstrip (s : string) : string :=
  match s with
  | EmptyString => EmptyString
  | String c s' => if Ascii.is_space c then lstrip s' else s
  end.

Fixpoint rstrip (s : string) : string :=
  match s with
  | EmptyString => EmptyString
  | String c s' =>
    match rstrip s' with
    | EmptyString => if Ascii.is_space c then EmptyString else String c EmptyString
    | r => String c r
    end
  end.

Definition strip (s : string) : string := rstrip (lstrip s).

(** [s.split(sep)] for a one-character separator *)
Fixpoint split (sep : ascii) (s : string) : list string :=
  match s with
  | EmptyString => [EmptyString]
  | String c s' =>
    if Ascii.eqb c sep then EmptyString :: split sep s'
    else match split sep s' with
         | h :: t => String c h :: t
         | [] => [String c EmptyString]
         end
  end.

(** [sep.join(l)] *)
Definition join (sep : string) (l : list string) : string := String.concat sep l.

(** truth value of a string: [if s:] *)
Definition truthy (s : string) : bool :=
  match s with EmptyString => false | String _ _ => true end.

(** [l[-1]] and [l[-2]]; [None] stands for [IndexError] *)
Definition last_item (l : list string) : option string := last l.
Definition last_but_one (l : list string) : option string :=
  match reverse l with
  | _ :: x :: _ => Some x
  | _ => None
  end.

(** [sorted(l)] on strings: a stable insertion sort by byte order *)
Fixpoint insert_sorted (x : string) (l : list string) : list string :=
  match l with
  | [] => [x]
  | y :: l' => if String.leb y x then y :: insert_sorted x l' else x :: l
  end.

Definition sorted (l : list string) : list string := foldr insert_sorted [] (reverse l).

(** [str(n)] for a non-negative integer *)
Definition str_of_N (n : N) : string := NilZero.string_of_uint (N.to_uint n).

End PyStr.

Import PyStr.


(** ** The key-value store behind [self.client.kv]

    Consul keeps its keys in lexicographic order and a recursive read
    returns the entries below a prefix in that order, so the store is an
    association list kept sorted by key.  An absent key reads as [None],
    a present one as the item whose ["Value"] is the stored text. *)

Module KV.

Definition t : Type := list (string * string).

Definition empty : t := [].

Fixpoint get (k : string) (m : t) : option string :=
  match m with
  | [] => None
  | (k', v) :: m' => if String.eqb k' k then Some v else get k m'
  end.

Fixpoint put (k v : string) (m : t) : t :=
  match m with
  | [] => [(k, v)]
  | (k', v') :: m' =>
    if String.eqb k' k then (k, v) :: m'
    else if String.ltb k k' then (k, v) :: m
    else (k', v') :: put k v m'
  end.

Definition delete (k : string) (m : t) : t :=
  List.filter (fun e => negb (String.eqb (fst e) k)) m.

(** [get(prefix, recurse=True)]: every entry whose key starts with [prefix] *)
Definition get_recurse (prefix : string) (m : t) : t :=
  List.filter (fun e => String.prefix prefix (fst e)) m.

(** [delete(prefix, recurse=True)]: drops every entry whose key starts
    with [prefix] *)
Definition delete_recurse (prefix : string) (m : t) : t :=
  List.filter (fun e => negb (String.prefix prefix (fst e))) m.

(** keys strictly increasing *)
Fixpoint wf (m : t) : bool :=
  match m with
  | [] => true
  | (k, _) :: m' => forallb (fun e => String.ltb k (fst e)) m' && wf m'
  end.

End KV.

(** ** The client: store, log of requests, exceptions *)

Inductive kv_op : Type :=
| OpGet (key : string)
| OpGetRecurse (key : string)
| OpPut (key value : string)
| OpDelete (key : string).

Record client : Type := Client {
  store : KV.t;
  calls : list kv_op
}.

Inductive exn : Type :=
| InstanceAlreadySwappedError
| CertificateNotFoundError
| AttributeError
| IndexError
| CollaboratorError.

Inductive outcome (A : Type) : Type :=
| Ok (a : A)
| Raise (e : exn).
Arguments Ok {A} a.
Arguments Raise {A} e.

Definition M (A : Type) : Type := client -> outcome A * client.

#[export] Instance M_ret : MRet M := fun A a c => (Ok a, c).

#[export] Instance M_bind : MBind M := fun A B k m c =>
  match m c with
  | (Ok a, c') => k a c'
  | (Raise e, c') => (Raise e, c')
  end.

Definition raise {A} (e : exn) : M A := fun c => (Raise e, c).

Definition lift {A} (o : outcome A) : M A := fun c => (o, c).

Definition kv_get (key : string) : M (option string) :=
  fun c => (Ok (KV.get key (store c)),
            Client (store c) (calls c ++ [OpGet key])).

Definition kv_get_recurse (key : string) : M KV.t :=
  fun c => (Ok (KV.get_recurse key (store c)),
            Client (store c) (calls c ++ [OpGetRecurse key])).

Definition kv_put (key value : string) : M unit :=
  fun c => (Ok tt, Client (KV.put key value (store c)) (calls c ++ [OpPut key value])).

Definition kv_delete (key : string) : M unit :=
  fun c => (Ok tt, Client (KV.delete key (store c)) (calls c ++ [OpDelete key])).

(** [os.path.join(a, b)] on POSIX *)
Definition os_path_join (a b : string) : string :=
  if String.prefix "/" b then b
  else match a with
       | EmptyString => b
       | _ => if String.eqb (String.substring (String.length a - 1) 1 a) "/"
              then a +:+ b else a +:+ "/" +:+ b
       end.

(** ** Values passed to and returned by the manager *)

(** The [server] argument of the upstream operations: [None], one
    address, or a list of addresses. *)
Inductive server_arg : Type :=
| SrvNone
| SrvStr (s : string)
| SrvList (l : list string).

(** [if server:] *)
Definition server_truthy (server : server_arg) : bool :=
  match server with
  | SrvNone => false
  | SrvStr s => truthy s
  | SrvList l => match l with [] => false | _ :: _ => true end
  end.

Record block_item : Type := BlockItem {
  block_name : string;
  content : string
}.

Record acl_item : Type := AclItem {
  source : option string;
  destination : list string
}.

#[export] Instance block_item_eq_dec : EqDecision block_item.
Proof. solve_decision. Defined.

#[export] Instance acl_item_eq_dec : EqDecision acl_item.
Proof. solve_decision. Defined.

(** A stand-in for [misc.host_from_destination] where a concrete parser
    is needed to run the code: it accepts a bare host name without port
    and raises on [None]. *)
Definition bare_host (destination : option string)
  : outcome (option string * option N) :=
  match destination with
  | None => Raise CollaboratorError
  | Some d => Ok (Some d, None)
  end.

(** ** [ConsulManager] *)

Section ConsulManager.

(** [self.service_name] *)
Variable service_name : string.

(** [misc.host_from_destination], defined outside the files at hand:
    it maps a destination to a [(host, port)] pair, either of which may
    be [None], or raises. *)
Variable host_from_destination :
  option string -> outcome (option string * option N).

(** The order in which a Python [set] of strings is iterated, at one
    iteration.  The properties below take it as any permutation of the
    elements, and none relies on two iterations of equal sets giving the
    same order. *)
Variable set_order : gset string -> list string.

Definition _key (instance_name : string) (suffix : option string) : string :=
  let key := service_name +:+ "/" +:+ instance_name in
  match suffix with
  | Some s => if truthy s then key +:+ ("/" +:+ s) else key
  | None => key
  end.

Definition _block_key (instance_name : string) (block_name : option string) : string :=
  let block_key := "ROOT" in
  match block_name with
  | Some b =>
    if truthy b
    then _key instance_name (Some ("blocks/" +:+ b +:+ "/" +:+ block_key))
    else _key instance_name (Some "blocks")
  | None => _key instance_name (Some "blocks")
  end.

Definition _upstream_key (instance_name upstream_name : string) : string :=
  _key instance_name (Some ("upstream/" +:+ upstream_name)).

Definition _acl_key (instance_name : string) (src : option string) : string :=
  match src with
  | Some s => if truthy s then _key instance_name (Some ("acl/" +:+ s))
              else _key instance_name (Some "acl")
  | None => _key instance_name (Some "acl")
  end.

Definition _ssl_cert_path (instance_name key_type : string) (host_id : option string) : string :=
  match host_id with
  | Some h =>
    if truthy h
    then os_path_join (_key instance_name (Some ("ssl/" +:+ h))) key_type
    else os_path_join (_key instance_name (Some "ssl")) key_type
  | None => os_path_join (_key instance_name (Some "ssl")) key_type
  end.

Definition begin_block (block_name : string) : string :=
  "## Begin custom RpaaS " +:+ block_name +:+ " block ##" +:+ LF.

Definition end_block (block_name : string) : string :=
  "## End custom RpaaS " +:+ block_name +:+ " block ##".

Definition _set_header_footer (content : option string) (block_name : string)
    (remove : bool) : outcome string :=
  if remove then
    match content with
    | None => Raise AttributeError
    | Some c =>
      let c := replace (begin_block block_name) "" c in
      let c := replace (end_block block_name) "" c in
      Ok (strip c)
    end
  else
    match content with
    | Some c =>
      if truthy c
      then Ok (begin_block block_name +:+ strip c +:+ LF +:+ end_block block_name)
      else Ok (begin_block block_name +:+ end_block block_name)
    | None => Ok (begin_block block_name +:+ end_block block_name)
    end.

Definition write_block (instance_name block_name : string) (content : option string) : M unit :=
  content ← lift (_set_header_footer content block_name false);
  kv_put (_block_key instance_name (Some block_name)) content.

Definition remove_block (instance_name block_name : string) : M unit :=
  write_block instance_name block_name None.

(** The body of the loop of [list_blocks], over the entries read. *)
Fixpoint list_blocks_loop (blocks : KV.t) : outcome (list block_item) :=
  match blocks with
  | [] => Ok []
  | (key, value) :: rest =>
    match last_but_one (split "/" key) with
    | None => Raise IndexError
    | Some block_name =>
      match _set_header_footer (Some value) block_name true with
      | Raise e => Raise e
      | Ok block_value =>
        match list_blocks_loop rest with
        | Raise e => Raise e
        | Ok block_list =>
          if negb (truthy block_value) then Ok block_list
          else Ok (BlockItem block_name block_value :: block_list)
        end
      end
    end
  end.

Definition list_blocks (instance_name : string) (block_name : option string)
  : M (list block_item) :=
  blocks ← kv_get_recurse (_block_key instance_name block_name);
  lift (list_blocks_loop blocks).

(** [":".join(map(str, filter(None, host_from_destination(server))))] *)
Definition server_address (server : option string) : outcome string :=
  match host_from_destination server with
  | Raise e => Raise e
  | Ok (host, port) =>
    Ok (join ":"
          (match host with
           | Some h => if truthy h then [h] else []
           | None => []
           end ++
           match port with
           | Some p => if N.eqb p 0 then [] else [str_of_N p]
           | None => []
           end))
  end.

(** the loop [for idx, _ in enumerate(server): server[idx] = ...] *)
Fixpoint server_addresses (server : list string) : outcome (list string) :=
  match server with
  | [] => Ok []
  | s :: rest =>
    match server_address (Some s) with
    | Raise e => Raise e
    | Ok a =>
      match server_addresses rest with
      | Raise e => Raise e
      | Ok l => Ok (a :: l)
      end
    end
  end.

Definition list_upstream (instance_name upstream_name : string) : M (gset string) :=
  servers ← kv_get (_upstream_key instance_name upstream_name);
  match servers with
  | Some value =>
    servers ← lift (_set_header_footer (Some value) "upstream" true);
    if String.eqb servers "" then mret ∅
    else mret (list_to_set (split "," servers))
  | None => mret ∅
  end.

Definition _save_upstream (instance_name upstream_name : string) (servers : gset string) : M unit :=
  content ← lift (_set_header_footer (Some (join "," (set_order servers))) "upstream" false);
  kv_put (_upstream_key instance_name upstream_name) content.

Definition _remove_upstream (instance_name upstream_name : string) : M unit :=
  content ← lift (_set_header_footer None "upstream" false);
  kv_put (_upstream_key instance_name upstream_name) content.

Definition add_server_upstream (instance_name upstream_name : string)
    (server : server_arg) : M unit :=
  if negb (server_truthy server) then mret tt
  else
    servers ← list_upstream instance_name upstream_name;
    servers ← match server with
              | SrvList l =>
                l ← lift (server_addresses l);
                mret (servers ∪ list_to_set l)
              | SrvStr s =>
                a ← lift (server_address (Some s));
                mret (servers ∪ {[a]})
              | SrvNone =>
                a ← lift (server_address None);
                mret (servers ∪ {[a]})
              end;
    _save_upstream instance_name upstream_name servers.

Definition remove_server_upstream (instance_name upstream_name : string)
    (server : server_arg) : M unit :=
  servers ← list_upstream instance_name upstream_name;
  servers ← match server with
            | SrvList l =>
              l ← lift (server_addresses l);
              mret (servers ∖ list_to_set l)
            | SrvStr s =>
              a ← lift (server_address (Some s));
              mret (if bool_decide (a ∈ servers) then servers ∖ {[a]} else servers)
            | SrvNone =>
              a ← lift (server_address None);
              mret (if bool_decide (a ∈ servers) then servers ∖ {[a]} else servers)
            end;
  if bool_decide (size servers < 1)
  then _remove_upstream instance_name upstream_name
  else _save_upstream instance_name upstream_name servers.

Definition check_swap_state (src_instance dst_instance : string) : M bool :=
  src_instance_status ← kv_get (_key src_instance (Some "swap"));
  dst_instance_status ← kv_get (_key dst_instance (Some "swap"));
  match src_instance_status, dst_instance_status with
  | None, None => mret true
  | None, Some _ | Some _, None => mret false
  | Some sv, Some dv =>
    if bool_decide (sorted [sv; dv] ≠ sorted [src_instance; dst_instance])
    then mret false
    else mret true
  end.

Definition swap_instances (src_instance dst_instance : string) : M unit :=
  ok ← check_swap_state src_instance dst_instance;
  if negb ok then raise InstanceAlreadySwappedError
  else
    src_instance_value ← kv_get (_key src_instance (Some "swap"));
    match src_instance_value with
    | None =>
      kv_put (_key src_instance (Some "swap")) dst_instance;;
      kv_put (_key dst_instance (Some "swap")) src_instance
    | Some value =>
      if String.eqb value dst_instance then
        kv_delete (_key src_instance (Some "swap"));;
        kv_delete (_key dst_instance (Some "swap"))
      else
        kv_put (_key src_instance (Some "swap")) dst_instance;;
        kv_put (_key dst_instance (Some "swap")) src_instance
    end.

Definition _normalize_acl_src (src : option string) : option string :=
  match src with
  | None => None
  | Some s =>
    if negb (truthy s) then None
    else if str_in "_" s then Some (replace "_" "/" s)
    else Some (replace "/" "_" s)
  end.

Definition find_acl_network (instance_name : string) (src : option string)
  : M (list acl_item) :=
  let src := _normalize_acl_src src in
  acls ← kv_get_recurse (_acl_key instance_name src);
  mret (map (fun acl =>
               let src := last_item (split "/" (fst acl)) in
               AclItem (_normalize_acl_src src) (split "," (snd acl)))
            acls).

Definition store_acl_network (instance_name src dst : string) : M unit :=
  acls ← find_acl_network instance_name (Some src);
  let acls := match acls with
              | a :: _ => set_order (list_to_set (destination a) ∪ {[dst]})
              | [] => [dst]
              end in
  let src := _normalize_acl_src (Some src) in
  kv_put (_acl_key instance_name src) (join "," acls).

Definition get_certificate (instance_name : string) (host_id : option string)
  : M (string * string) :=
  cert ← kv_get (_ssl_cert_path instance_name "cert" host_id);
  key ← kv_get (_ssl_cert_path instance_name "key" host_id);
  match cert, key with
  | Some c, Some k => mret (c, k)
  | _, _ => raise CertificateNotFoundError
  end.

Definition set_certificate (instance_name cert_data key_data : string)
    (host_id : option string) : M unit :=
  kv_put (_ssl_cert_path instance_name "cert" host_id) (replace (CR +:+ LF) LF cert_data);;
  kv_put (_ssl_cert_path instance_name "key" host_id) (replace (CR +:+ LF) LF key_data).

(** The set of addresses that [remove_server_upstream] takes out of the
    stored set, for each shape of its [server] argument. *)
Definition removed_addresses (server : server_arg) : outcome (gset string) :=
  match server with
  | SrvList l =>
    match server_addresses l with
    | Ok l => Ok (list_to_set l)
    | Raise e => Raise e
    end
  | SrvStr s =>
    match server_address (Some s) with
    | Ok a => Ok {[a]}
    | Raise e => Raise e
    end
  | SrvNone =>
    match server_address None with
    | Ok a => Ok {[a]}
    | Raise e => Raise e
    end
  end.

(** *** The states of a pair of instances in the swap machine *)

Definition swap_pointer (c : client) (instance_name : string) : option string :=
  KV.get (_key instance_name (Some "swap")) (store c).

Definition Unswapped (c : client) (a b : string) : Prop :=
  swap_pointer c a = None ∧ swap_pointer c b = None.

Definition Swapped (c : client) (a b : string) : Prop :=
  swap_pointer c a = Some b ∧ swap_pointer c b = Some a.

(** Exactly one of the two pointers set, or both set but not referring
    to each other. *)
Definition Inconsistent (c : client) (a b : string) : Prop :=
  match swap_pointer c a, swap_pointer c b with
  | None, None => False
  | Some _, None | None, Some _ => True
  | Some va, Some vb => ¬ (va = b ∧ vb = a)
  end.

(** Both pointers set, each to its own instance. *)
Definition SelfPointing (c : client) (a b : string) : Prop :=
  swap_pointer c a = Some a ∧ swap_pointer c b = Some b.

End ConsulManager.

(** ** The rest of [ConsulManager]

    Requests that are not reads, writes or deletes of one key are logged
    beside the client: the recursive delete of a subtree and the
    [force_leave] sent to the agent. *)

Inductive cluster_op : Type :=
| OpDeleteRecurse (key : string)
| OpForceLeave (node : string).

Record cluster : Type := Cluster {
  kv_client : client;
  cluster_calls : list cluster_op
}.

Definition C (A : Type) : Type := cluster -> outcome A * cluster.

#[export] Instance C_ret : MRet C := fun A a c => (Ok a, c).

#[export] Instance C_bind : MBind C := fun A B k m c =>
  match m c with
  | (Ok a, c') => k a c'
  | (Raise e, c') => (Raise e, c')
  end.

(** a request of the key-value client, run inside the cluster *)
Definition on_client {A} (m : M A) : C A :=
  fun c => match m (kv_client c) with
           | (r, k) => (r, Cluster k (cluster_calls c))
           end.

Definition kv_delete_recurse (key : string) : C unit :=
  fun c => (Ok tt,
            Cluster (Client (KV.delete_recurse key (store (kv_client c)))
                            (calls (kv_client c)))
                    (cluster_calls c ++ [OpDeleteRecurse key])).

Definition agent_force_leave (node : string) : C unit :=
  fun c => (Ok tt, Cluster (kv_client c) (cluster_calls c ++ [OpForceLeave node])).

(** ["{}".format(v)] for a string or [None] *)
Definition format_value (v : option string) : string :=
  match v with
  | Some s => s
  | None => "None"
  end.

(** A stand-in for [generate_host_config] where a concrete text is
    needed to run the code. *)
Definition sample_host_config (path : string) (destination upstream : option string)
    (router_mode https_only : bool) : string :=
  "location " +:+ path +:+ " { proxy_pass " +:+ format_value destination
    +:+ "; # upstream " +:+ format_value upstream +:+ " }".

Section ConsulManagerRest.

Variable service_name : string.
Variable host_from_destination :
  option string -> outcome (option string * option N).
Variable set_order : gset string -> list string.

(** [self.config_manager.generate_host_config], of [nginx.py], outside
    the files at hand: the text of a location from its path, destination,
    upstream name, [router_mode] and [https_only]. *)
Variable generate_host_config :
  string -> option string -> option string -> bool -> bool -> string.

Definition _location_key (instance_name path : string) : string :=
  let location_key :=
    if negb (String.eqb path "/") then replace "/" "___" path else "ROOT" in
  _key service_name instance_name (Some ("locations/" +:+ location_key)).

Definition _server_status_key (instance_name : string) (server_name : option string)
  : string :=
  match server_name with
  | Some s => if truthy s
              then _key service_name instance_name (Some ("status/" +:+ s))
              else _key service_name instance_name (Some "status")
  | None => _key service_name instance_name (Some "status")
  end.

Definition _lua_key (instance_name lua_module_name lua_module_type : string) : string :=
  let base_key :=
    if truthy lua_module_name && truthy lua_module_type
    then "lua_module/" +:+ lua_module_type +:+ "/" +:+ lua_module_name
    else "lua_module" in
  _key service_name instance_name (Some base_key).

Definition destroy_instance (instance_name : string) : C unit :=
  kv_delete_recurse (_key service_name (instance_name +:+ "/") None).

Definition write_healthcheck (instance_name : string) : M unit :=
  kv_put (_key service_name instance_name (Some "healthcheck")) "true".

Definition remove_healthcheck (instance_name : string) : M unit :=
  kv_delete (_key service_name instance_name (Some "healthcheck")).

Definition remove_node (instance_name server_name : string) (host_id : option string)
  : C unit :=
  on_client (kv_delete (_server_status_key instance_name (Some server_name)));;
  kv_delete_recurse (_ssl_cert_path service_name instance_name "" host_id);;
  agent_force_leave server_name.

Definition write_location (instance_name path : string)
    (destination content : option string)
    (router_mode bind_mode https_only : bool) : M unit :=
  content ←
    (if match content with Some c => truthy c | None => false end
     then mret (strip (default "" content))
     else
       '(upstream, _) ← lift (host_from_destination destination);
       let upstream_server := upstream in
       let upstream := if bind_mode then Some "rpaas_default_upstream" else upstream in
       let content :=
         generate_host_config path destination upstream router_mode https_only in
       let upstream_server := if router_mode then None else upstream_server in
       add_server_upstream service_name host_from_destination set_order
         instance_name (format_value upstream)
         match upstream_server with Some h => SrvStr h | None => SrvNone end;;
       mret content);
  kv_put (_location_key instance_name path) content.

Definition remove_location (instance_name path : string) : M unit :=
  kv_delete (_location_key instance_name path).

Definition _lua_module_escope (lua_module_name : string) (content : option string)
  : string :=
  let begin_escope := "-- Begin custom RpaaS " +:+ lua_module_name +:+ " lua module --" in
  let end_escope := "-- End custom RpaaS " +:+ lua_module_name +:+ " lua module --" in
  let content_stripped :=
    match content with
    | Some c => if truthy c then strip c else ""
    | None => ""
    end in
  begin_escope +:+ LF +:+ content_stripped +:+ LF +:+ end_escope.

Definition write_lua (instance_name lua_module_name lua_module_type : string)
    (content : option string) : M unit :=
  let content_block := _lua_module_escope lua_module_name content in
  let key := _lua_key instance_name lua_module_name lua_module_type in
  kv_put key content_block.

Record lua_item : Type := LuaItem {
  module_name : string;
  module_content : string
}.

(** The body of the loop of [list_lua_modules], over the entries read. *)
Fixpoint list_lua_modules_loop (modules : KV.t) : outcome (list lua_item) :=
  match modules with
  | [] => Ok []
  | (key, value) :: rest =>
    match last_but_one (split "/" key) with
    | None => Raise IndexError
    | Some name =>
      match list_lua_modules_loop rest with
      | Raise e => Raise e
      | Ok module_list => Ok (LuaItem name value :: module_list)
      end
    end
  end.

Definition list_lua_modules (instance_name : string) : M (list lua_item) :=
  modules ← kv_get_recurse (_lua_key instance_name "" "");
  lift (list_lua_modules_loop modules).

Definition remove_lua (instance_name lua_module_name lua_module_type : string) : M unit :=
  write_lua instance_name lua_module_name lua_module_type None.

Definition remove_acl_network (instance_name src : string) : M unit :=
  let src := _normalize_acl_src (Some src) in
  kv_delete (_acl_key service_name instance_name src).

Definition delete_certificate (instance_name : string) : M unit :=
  kv_delete (_ssl_cert_path service_name instance_name "cert" None);;
  kv_delete (_ssl_cert_path service_name instance_name "key" None).

End ConsulManagerRest.

(** ** Notions used to state the properties *)

(** [P] holds of every character of [s]. *)
Fixpoint str_forallb (P : ascii -> bool) (s : string) : bool :=
  match s with
  | EmptyString => true
  | String c s' => P c && str_forallb P s'
  end.

(** The characters of a host name with its port: no whitespace, no
    comma and no ["#"]. *)
Definition address_char (c : ascii) : bool :=
  negb (Ascii.is_space c) && negb (Ascii.eqb c ",") && negb (Ascii.eqb c "#").

(** A non-empty string of such characters. *)
Definition plain_address (s : string) : bool :=
  truthy s && str_forallb address_char s.


(** A string that [lstrip] leaves as it is. *)
Definition no_leading_space (s : string) : Prop :=
  match s with
  | EmptyString => True
  | String c _ => Ascii.is_space c = false
  end.

(** What [_set_header_footer] puts after the begin line for a non-empty
    content: the trimmed content, a newline and the end line. *)
Definition framed_tail (content block_name : string) : string :=
  strip content +:+ LF +:+ end_block block_name.

(** The sentinels of the frame stand alone: in the text after the begin
    line, the begin line does not occur again and the end line occurs
    first as the very end.  An empty content has nothing between them. *)
Definition sentinels_stand_alone (content block_name : string) : bool :=
  negb (truthy content) ||
  (bool_decide (str_find (begin_block block_name) (framed_tail content block_name) = None) &&
   bool_decide (str_find (end_block block_name) (framed_tail content block_name)
                = Some (String.length (strip content +:+ LF)))).

(** * Properties *)

(** ** The string methods on examples *)

Example replace_ex1 : replace "ab" "-" "xabababy" = "x---y".
Proof. reflexivity. Qed.
Example replace_ex2 : replace "aa" "b" "aaa" = "ba".
Proof. reflexivity. Qed.
Example replace_ex3 : replace "" "-" "abc" = "-a-b-c-".
Proof. reflexivity. Qed.
Example strip_ex1 : strip (" a b " +:+ LF) = "a b".
Proof. reflexivity. Qed.
Example split_ex1 : split "," "a,,b" = ["a"; ""; "b"].
Proof. reflexivity. Qed.
Example split_ex2 : split "," "" = [""].
Proof. reflexivity. Qed.
Example join_ex1 : join "," ["a"; "b"; "c"] = "a,b,c".
Proof. reflexivity. Qed.
Example sorted_ex1 : sorted ["b"; "a"; "c"; "a"] = ["a"; "a"; "b"; "c"].
Proof. reflexivity. Qed.
Example last_but_one_ex1 :
  last_but_one (split "/" "rpaas/x/blocks/http/ROOT") = Some "http".
Proof. reflexivity. Qed.
Example str_of_N_ex1 : str_of_N 8080 = "8080".
Proof. reflexivity. Qed.

(** ** Lemmas on strings *)

Section StringFacts.

Implicit Types s t u old new : string.

Lemma app_cons c s t : String c s +:+ t = String c (s +:+ t).
Proof. reflexivity. Qed.

Lemma app_nil_l s : "" +:+ s = s.
Proof. reflexivity. Qed.

Lemma app_nil_r s : s +:+ "" = s.
Proof. induction s as [|c s IH]; [done|]. by rewrite app_cons, IH. Qed.

Lemma app_assoc' s t u : (s +:+ t) +:+ u = s +:+ (t +:+ u).
Proof. induction s as [|c s IH]; [done|]. by rewrite !app_cons, IH. Qed.

Lemma length_app s t : String.length (s +:+ t) = String.length s + String.length t.
Proof. induction s as [|c s IH]; [done|]. rewrite app_cons. simpl. by rewrite IH. Qed.

Lemma app_inj_r s1 s2 t : s1 +:+ t = s2 +:+ t → s1 = s2.
Proof.
  revert s2. induction s1 as [|c s1 IH]; intros [|d s2] H.
  - done.
  - apply (f_equal String.length) in H. rewrite !length_app in H. simpl in H. lia.
  - apply (f_equal String.length) in H. rewrite !length_app in H. simpl in H. lia.
  - rewrite !app_cons in H. injection H as -> H. f_equal. by apply IH.
Qed.

Lemma prefix_nil s : String.prefix "" s = true.
Proof. by destruct s. Qed.

Lemma prefix_cons c old d s :
  String.prefix (String c old) (String d s) = bool_decide (c = d) && String.prefix old s.
Proof.
  simpl. destruct (ascii_dec c d) as [->|Hne].
  - by rewrite bool_decide_eq_true_2.
  - by rewrite bool_decide_eq_false_2.
Qed.

Lemma prefix_app s t : String.prefix s (s +:+ t) = true.
Proof.
  induction s as [|c s IH]; [apply prefix_nil|].
  rewrite app_cons, prefix_cons, IH. by rewrite bool_decide_eq_true_2.
Qed.

Lemma prefix_length old s : String.prefix old s = true → String.length old ≤ String.length s.
Proof.
  revert s. induction old as [|c old IH]; intros [|d s] H; simpl; try lia.
  - by simpl in H.
  - rewrite prefix_cons in H. apply andb_true_iff in H as [_ H].
    apply IH in H. lia.
Qed.

Lemma str_find_length old s n :
  str_find old s = Some n → n + String.length old ≤ String.length s.
Proof.
  revert n. induction s as [|d s IH]; intros n H.
  - cbn [str_find] in H. destruct (String.prefix old "") eqn:Hp; [|done].
    injection H as <-. apply prefix_length in Hp. simpl in *. lia.
  - cbn [str_find] in H. destruct (String.prefix old (String d s)) eqn:Hp.
    + injection H as <-. apply prefix_length in Hp. simpl in *. lia.
    + destruct (str_find old s) as [m|] eqn:Hf; [|done].
      injection H as <-. specialize (IH m eq_refl). simpl. lia.
Qed.

Lemma str_find_too_long old s :
  String.length s < String.length old → str_find old s = None.
Proof.
  intros Hlt. destruct (str_find old s) as [n|] eqn:Hf; [|done].
  apply str_find_length in Hf. lia.
Qed.

Lemma replace_from_skip old new u t :
  replace_from old new (String.length u) (u +:+ t) = replace_from old new 0 t.
Proof.
  induction u as [|c u IH]; [by destruct t|].
  rewrite app_cons. simpl. apply IH.
Qed.

Lemma replace_nonempty c old new s :
  replace (String c old) new s = replace_from (String c old) new 0 s.
Proof. reflexivity. Qed.

Lemma replace_from_prefix c old new t :
  replace_from (String c old) new 0 (String c old +:+ t)
  = new +:+ replace_from (String c old) new 0 t.
Proof.
  rewrite app_cons. cbn [replace_from].
  rewrite <- app_cons, prefix_app. f_equal.
  cbn [String.length]. rewrite Nat.sub_1_r. cbn [Nat.pred].
  apply replace_from_skip.
Qed.

Lemma replace_from_not_found c old new s :
  str_find (String c old) s = None → replace_from (String c old) new 0 s = s.
Proof.
  induction s as [|d s IH]; intros H; [done|].
  cbn [str_find] in H. cbn [replace_from].
  destruct (String.prefix (String c old) (String d s)); [done|].
  destruct (str_find (String c old) s); [done|]. by rewrite IH.
Qed.

Lemma replace_from_at_find c old new a b :
  str_find (String c old) (a +:+ String c old +:+ b) = Some (String.length a) →
  replace_from (String c old) new 0 (a +:+ String c old +:+ b)
  = a +:+ new +:+ replace_from (String c old) new 0 b.
Proof.
  induction a as [|d a IH]; intros H.
  - rewrite !app_nil_l. apply replace_from_prefix.
  - rewrite (app_cons d a) in *. cbn [str_find] in H. cbn [replace_from].
    destruct (String.prefix (String c old) (String d (a +:+ String c old +:+ b)));
      [done|].
    destruct (str_find (String c old) (a +:+ String c old +:+ b)) as [n|] eqn:Hf;
      [|done].
    simpl in H. injection H as ->. by rewrite IH.
Qed.

End StringFacts.

Section StripFacts.

Implicit Types s t : string.

Lemma rstrip_app_space s w :
  Ascii.is_space w = true → rstrip (s +:+ String w "") = rstrip s.
Proof.
  intros Hw. induction s as [|c s IH].
  - rewrite app_nil_l. cbn. by rewrite Hw.
  - rewrite app_cons. cbn [rstrip]. by rewrite IH.
Qed.

Lemma rstrip_idem s : rstrip (rstrip s) = rstrip s.
Proof.
  induction s as [|c s IH]; [done|].
  cbn [rstrip]. destruct (rstrip s) as [|d r] eqn:Hr.
  - destruct (Ascii.is_space c) eqn:Hc; [done|]. cbn. by rewrite Hc.
  - cbn [rstrip]. cbn [rstrip] in IH. by rewrite IH.
Qed.

Lemma lstrip_no_leading_space s : no_leading_space (lstrip s).
Proof.
  induction s as [|c s IH]; [done|].
  cbn [lstrip]. destruct (Ascii.is_space c) eqn:Hc; [done|]. exact Hc.
Qed.

Lemma rstrip_no_leading_space s : no_leading_space s → no_leading_space (rstrip s).
Proof.
  destruct s as [|c s]; [done|]. intros Hc. cbn [rstrip].
  destruct (rstrip s); [|exact Hc]. cbn in Hc. rewrite Hc. exact Hc.
Qed.

Lemma strip_no_leading_space s : no_leading_space (strip s).
Proof. apply rstrip_no_leading_space, lstrip_no_leading_space. Qed.

Lemma lstrip_id s : no_leading_space s → lstrip s = s.
Proof. destruct s as [|c s]; [done|]. intros Hc. cbn in *. by rewrite Hc. Qed.

Lemma strip_idem s : strip (strip s) = strip s.
Proof.
  unfold strip at 1. rewrite lstrip_id by apply strip_no_leading_space.
  apply rstrip_idem.
Qed.

Lemma strip_strip_LF s : strip (strip s +:+ LF) = strip s.
Proof.
  pose proof (strip_no_leading_space s) as Hs.
  destruct (strip s) as [|c r] eqn:Hr; [done|].
  unfold strip at 1. rewrite lstrip_id.
  - unfold LF. rewrite rstrip_app_space by done.
    rewrite <- Hr. unfold strip. apply rstrip_idem.
  - exact Hs.
Qed.

End StripFacts.

Section ReplaceFacts.

Implicit Types s t old new : string.

Lemma replace_prefix old new t :
  truthy old = true → replace old new (old +:+ t) = new +:+ replace old new t.
Proof. destruct old; [done|]. intros _. apply replace_from_prefix. Qed.

Lemma replace_not_found old new s :
  truthy old = true → str_find old s = None → replace old new s = s.
Proof. destruct old; [done|]. intros _. apply replace_from_not_found. Qed.

Lemma replace_at_find old new a b :
  truthy old = true →
  str_find old (a +:+ old +:+ b) = Some (String.length a) →
  replace old new (a +:+ old +:+ b) = a +:+ new +:+ replace old new b.
Proof. destruct old; [done|]. intros _. apply replace_from_at_find. Qed.

Lemma replace_nil old new : truthy old = true → replace old new "" = "".
Proof. by destruct old. Qed.

Lemma replace_self old : truthy old = true → replace old "" old = "".
Proof.
  intros H. rewrite <- (app_nil_r old) at 2.
  rewrite replace_prefix by done. by rewrite replace_nil.
Qed.

End ReplaceFacts.

(** ** Content framing *)

Section Framing.

Implicit Types c l : string.

Lemma begin_block_truthy l : truthy (begin_block l) = true.
Proof. reflexivity. Qed.

Lemma end_block_truthy l : truthy (end_block l) = true.
Proof. reflexivity. Qed.

Lemma begin_block_length l : String.length (begin_block l) = 32 + String.length l.
Proof. unfold begin_block. rewrite !length_app. cbn. lia. Qed.

Lemma end_block_length l : String.length (end_block l) = 29 + String.length l.
Proof. unfold end_block. rewrite !length_app. cbn. lia. Qed.

(** The begin line is longer than the end line, so it never occurs in it. *)
Lemma begin_not_in_end l : str_find (begin_block l) (end_block l) = None.
Proof.
  apply str_find_too_long. rewrite begin_block_length, end_block_length. lia.
Qed.

(** Unframing the empty frame gives the empty string, whatever the label. *)
Lemma unframe_empty_frame l :
  _set_header_footer (Some (begin_block l +:+ end_block l)) l true = Ok "".
Proof.
  cbn [_set_header_footer].
  rewrite replace_prefix by apply begin_block_truthy.
  rewrite app_nil_l, (replace_not_found (begin_block l))
    by (apply begin_block_truthy || apply begin_not_in_end).
  by rewrite replace_self by apply end_block_truthy.
Qed.

Lemma unframe_framed_tail c l :
  str_find (begin_block l) (framed_tail c l) = None →
  str_find (end_block l) (framed_tail c l) = Some (String.length (strip c +:+ LF)) →
  _set_header_footer (Some (begin_block l +:+ framed_tail c l)) l true = Ok (strip c).
Proof.
  intros Hb He. cbn [_set_header_footer].
  rewrite replace_prefix by apply begin_block_truthy.
  rewrite app_nil_l, (replace_not_found (begin_block l))
    by (apply begin_block_truthy || done).
  unfold framed_tail in *.
  assert (replace (end_block l) "" ((strip c +:+ LF) +:+ end_block l +:+ "")
          = (strip c +:+ LF) +:+ "" +:+ replace (end_block l) "" "") as Hr.
  { apply replace_at_find; [apply end_block_truthy|].
    by rewrite app_nil_r, app_assoc'. }
  rewrite app_nil_r, app_assoc', app_nil_l in Hr.
  rewrite Hr, replace_nil, app_nil_r by apply end_block_truthy.
  by rewrite strip_strip_LF.
Qed.

(** The frame of a string on which [strip] leaves nothing, and of no
    content at all, is the empty frame. *)
Lemma frame_returns content l :
  ∃ framed, _set_header_footer content l false = Ok framed.
Proof. destruct content as [c|]; cbn; [destruct (truthy c)|]; eauto. Qed.

(** C3 (as amended): for every content [c] and label [l] whose sentinels
    stand alone in the framed text (the begin line does not occur again
    after the frame's own begin line, and the end line occurs first at
    the very end), framing returns a text whose unframing is [strip c];
    an empty content is framed as the begin line directly followed by
    the end line. *)
Theorem frame_unframe_roundtrip c l :
  sentinels_stand_alone c l = true →
  ∃ framed,
    _set_header_footer (Some c) l false = Ok framed ∧
    (truthy c = true →
       framed = begin_block l +:+ strip c +:+ LF +:+ end_block l) ∧
    (truthy c = false → framed = begin_block l +:+ end_block l) ∧
    _set_header_footer (Some framed) l true = Ok (strip c).
Proof.
  unfold sentinels_stand_alone. intros H.
  cbn [_set_header_footer]. destruct (truthy c) eqn:Hc.
  - cbn in H. apply andb_true_iff in H as [Hb He].
    apply bool_decide_eq_true_1 in Hb, He.
    eexists. split; [done|]. split; [done|]. split; [done|].
    by apply unframe_framed_tail.
  - eexists. split; [done|]. split; [done|]. split; [done|].
    destruct c; [|done]. apply unframe_empty_frame.
Qed.

(** The framing of a block of the test suite. *)
Lemma frame_unframe_roundtrip_witness :
  sentinels_stand_alone (" something nice in http         " +:+ LF) "http" = true ∧
  ∃ framed,
    _set_header_footer (Some (" something nice in http         " +:+ LF)) "http" false
      = Ok framed ∧
    (truthy (" something nice in http         " +:+ LF) = true →
       framed = begin_block "http" +:+ strip (" something nice in http         " +:+ LF)
                +:+ LF +:+ end_block "http") ∧
    (truthy (" something nice in http         " +:+ LF) = false →
       framed = begin_block "http" +:+ end_block "http") ∧
    _set_header_footer (Some framed) "http" true
      = Ok (strip (" something nice in http         " +:+ LF)).
Proof.
  split; [reflexivity|].
  apply (frame_unframe_roundtrip (" something nice in http         " +:+ LF) "http").
  reflexivity.
Defined.

(** C3 fails on a content that carries the end line of its own label:
    unframing removes every occurrence of the sentinel, the content with
    it. *)
Lemma frame_unframe_counterexample :
  _set_header_footer (Some "## End custom RpaaS x block ##") "x" false
    = Ok (begin_block "x" +:+ "## End custom RpaaS x block ##" +:+ LF +:+ end_block "x") ∧
  _set_header_footer
    (Some (begin_block "x" +:+ "## End custom RpaaS x block ##" +:+ LF +:+ end_block "x"))
    "x" true = Ok "" ∧
  Ok (A:=string) "" ≠ Ok (strip "## End custom RpaaS x block ##").
Proof. split; [reflexivity|]. split; [reflexivity|]. discriminate. Qed.

(** A content that carries the begin marker is lost in the same way. *)
Lemma frame_unframe_begin_marker :
  _set_header_footer
    (Some (begin_block "x" +:+ "## Begin custom RpaaS x block ##" +:+ LF +:+ end_block "x"))
    "x" true = Ok "" ∧
  strip "## Begin custom RpaaS x block ##" = "## Begin custom RpaaS x block ##".
Proof. split; reflexivity. Qed.

End Framing.

(** ** The key-value store *)

Section StoreFacts.

Implicit Types (k v : string) (m : KV.t).

Lemma ltb_irrefl k : String.ltb k k = false.
Proof.
  unfold String.ltb. pose proof (String.compare_antisym k k) as H.
  destruct (String.compare k k); simpl in H; done.
Qed.

Lemma ltb_leb a b : String.ltb a b = true → String.leb a b = true.
Proof. unfold String.ltb, String.leb. by destruct (String.compare a b). Qed.

Lemma ltb_trans a b c :
  String.ltb a b = true → String.ltb b c = true → String.ltb a c = true.
Proof.
  intros Hab Hbc.
  assert (String.leb a c = true) as Hac.
  { apply Is_true_true. apply (transitivity (R:=String.le) (y:=b));
      apply Is_true_true; by apply ltb_leb. }
  unfold String.ltb, String.leb in *.
  destruct (String.compare a c) eqn:Hc; try done.
  apply String.compare_eq_iff in Hc as ->.
  rewrite String.compare_antisym in Hab.
  destruct (String.compare b c); done.
Qed.

Lemma get_put_eq k v m : KV.get k (KV.put k v m) = Some v.
Proof.
  induction m as [|[k' v'] m IH]; cbn.
  - by rewrite String.eqb_refl.
  - destruct (String.eqb_spec k' k) as [->|Hne]; cbn.
    + by rewrite String.eqb_refl.
    + destruct (String.ltb k k'); cbn.
      * by rewrite String.eqb_refl.
      * apply String.eqb_neq in Hne. by rewrite Hne.
Qed.

Lemma get_put_ne k k' v m : k ≠ k' → KV.get k' (KV.put k v m) = KV.get k' m.
Proof.
  intros Hne. apply String.eqb_neq in Hne.
  induction m as [|[k1 v1] m IH]; cbn.
  - by rewrite Hne.
  - destruct (String.eqb_spec k1 k) as [->|Hne1]; cbn.
    + by rewrite Hne.
    + destruct (String.ltb k k1); cbn.
      * by rewrite Hne.
      * by rewrite IH.
Qed.

Lemma get_delete_eq k m : KV.get k (KV.delete k m) = None.
Proof.
  induction m as [|[k' v'] m IH]; cbn; [done|].
  destruct (String.eqb_spec k' k) as [->|Hne]; cbn; [done|].
  apply String.eqb_neq in Hne. by rewrite Hne.
Qed.

Lemma get_delete_ne k k' m : k ≠ k' → KV.get k' (KV.delete k m) = KV.get k' m.
Proof.
  intros Hne. unfold KV.delete.
  induction m as [|[k1 v1] m IH]; cbn; [done|].
  destruct (String.eqb_spec k1 k) as [->|Hne1]; cbn.
  - apply String.eqb_neq in Hne. by rewrite Hne.
  - by rewrite IH.
Qed.

Lemma prefix_refl k : String.prefix k k = true.
Proof. rewrite <- (app_nil_r k) at 2. apply prefix_app. Qed.

Lemma get_recurse_put_fresh p k v m :
  String.prefix p k = true → KV.get_recurse p m = [] →
  KV.get_recurse p (KV.put k v m) = [(k, v)].
Proof.
  unfold KV.get_recurse. intros Hp. induction m as [|[k' v'] m IH]; cbn.
  - by rewrite Hp.
  - destruct (String.prefix p k') eqn:Hp'; [done|]. intros Hm.
    destruct (String.eqb_spec k' k) as [->|Hne]; [congruence|].
    destruct (String.ltb k k'); cbn.
    + by rewrite Hp, Hp', Hm.
    + by rewrite Hp', IH.
Qed.

Lemma put_put k v1 v2 m : KV.put k v2 (KV.put k v1 m) = KV.put k v2 m.
Proof.
  induction m as [|[k' v'] m IH]; cbn.
  - by rewrite String.eqb_refl.
  - destruct (String.eqb_spec k' k) as [->|Hne]; cbn.
    + by rewrite String.eqb_refl.
    + destruct (String.ltb k k') eqn:Hlt; cbn.
      * by rewrite String.eqb_refl.
      * apply String.eqb_neq in Hne. by rewrite Hne, Hlt, IH.
Qed.

Lemma ltb_neq a b : String.ltb a b = true → String.eqb b a = false.
Proof.
  intros H. apply String.eqb_neq. intros ->. by rewrite ltb_irrefl in H.
Qed.

Lemma ltb_trichotomy a b :
  String.eqb b a = false → String.ltb a b = false → String.ltb b a = true.
Proof.
  intros Hne Hlt. apply String.eqb_neq in Hne.
  unfold String.ltb in *. rewrite String.compare_antisym.
  destruct (String.compare a b) eqn:Hc; try done.
  by apply String.compare_eq_iff in Hc as ->.
Qed.

Lemma forallb_ltb_trans a b m :
  String.ltb a b = true →
  forallb (λ e, String.ltb b (fst e)) m = true →
  forallb (λ e, String.ltb a (fst e)) m = true.
Proof.
  intros Hab. rewrite !forallb_forall. intros H e He.
  eapply ltb_trans; [exact Hab|]. by apply H.
Qed.

Lemma forallb_put (P : string * string → bool) k v m :
  P (k, v) = true → forallb P m = true → forallb P (KV.put k v m) = true.
Proof.
  intros Hk. induction m as [|[k' v'] m IH]; cbn.
  - by rewrite Hk.
  - intros [H1 H2]%andb_true_iff.
    destruct (String.eqb k' k); [|destruct (String.ltb k k')]; cbn.
    + by rewrite Hk, H2.
    + by rewrite Hk, H1, H2.
    + by rewrite H1, IH.
Qed.

Lemma delete_put k v m : KV.delete k (KV.put k v m) = KV.delete k m.
Proof.
  unfold KV.delete. induction m as [|[k' v'] m IH]; cbn.
  - by rewrite String.eqb_refl.
  - destruct (String.eqb_spec k' k) as [->|Hne]; cbn.
    + by rewrite String.eqb_refl.
    + apply String.eqb_neq in Hne. destruct (String.ltb k k'); cbn.
      * by rewrite String.eqb_refl, Hne.
      * by rewrite Hne, IH.
Qed.

Lemma get_recurse_delete p k m :
  KV.get_recurse p (KV.delete k m) = KV.delete k (KV.get_recurse p m).
Proof.
  unfold KV.get_recurse, KV.delete. induction m as [|[k' v'] m IH]; [done|]. cbn.
  destruct (String.eqb k' k) eqn:He, (String.prefix p k') eqn:Hp; cbn;
    by rewrite ?He, ?Hp, ?IH.
Qed.

Lemma get_delete_recurse k p m :
  KV.get k (KV.delete_recurse p m)
  = if String.prefix p k then None else KV.get k m.
Proof.
  unfold KV.delete_recurse. induction m as [|[k' v'] m IH]; cbn.
  - by destruct (String.prefix p k).
  - destruct (String.prefix p k') eqn:Hp; cbn.
    + rewrite IH. destruct (String.eqb_spec k' k) as [->|Hne]; [by rewrite Hp|done].
    + rewrite IH. destruct (String.eqb_spec k' k) as [->|Hne]; [by rewrite Hp|done].
Qed.

Lemma get_recurse_delete_recurse p q m :
  (∀ k, String.prefix q k = true → String.prefix p k = true) →
  KV.get_recurse q (KV.delete_recurse p m) = [].
Proof.
  intros Hpq. unfold KV.get_recurse, KV.delete_recurse.
  induction m as [|[k' v'] m IH]; [done|]. cbn.
  destruct (String.prefix p k') eqn:Hp; cbn; [done|].
  destruct (String.prefix q k') eqn:Hq; [|done].
  by rewrite (Hpq k' Hq) in Hp.
Qed.

(** The operations of the store keep its keys strictly increasing. *)
Lemma wf_empty : KV.wf KV.empty = true.
Proof. reflexivity. Qed.

Lemma wf_put k v m : KV.wf m = true → KV.wf (KV.put k v m) = true.
Proof.
  induction m as [|[k' v'] m IH]; [done|]. cbn.
  intros [Hlt Hwf]%andb_true_iff.
  destruct (String.eqb_spec k' k) as [->|Hne]; cbn.
  - by rewrite Hlt, Hwf.
  - destruct (String.ltb k k') eqn:Hk; cbn.
    + rewrite Hk, Hlt, Hwf. cbn. by rewrite (forallb_ltb_trans k k' m).
    + rewrite IH, andb_true_r by done.
      apply forallb_put; [|done]. cbn. apply ltb_trichotomy; [|done].
      by apply String.eqb_neq.
Qed.

Lemma wf_delete k m : KV.wf m = true → KV.wf (KV.delete k m) = true.
Proof.
  unfold KV.delete. induction m as [|[k' v'] m IH]; [done|]. cbn.
  intros [Hlt Hwf]%andb_true_iff.
  destruct (String.eqb k' k); cbn; [by apply IH|].
  rewrite IH, andb_true_r by done.
  rewrite forallb_forall in *. intros e [He _]%filter_In. by apply Hlt.
Qed.

(** A key below every key of the store is not in it. *)
Lemma delete_below k m :
  forallb (λ e, String.ltb k (fst e)) m = true → KV.delete k m = m.
Proof.
  unfold KV.delete. induction m as [|[k' v'] m IH]; [done|]. cbn.
  intros [Hlt H]%andb_true_iff. by rewrite (ltb_neq _ _ Hlt), IH.
Qed.

End StoreFacts.

(** Unfolding the monad on a run of the client. *)
#[local] Arguments _key : simpl never.
#[local] Arguments sorted : simpl never.
#[local] Arguments KV.get : simpl never.
#[local] Arguments KV.put : simpl never.
#[local] Arguments KV.delete : simpl never.
#[local] Arguments KV.get_recurse : simpl never.

Ltac run :=
  unfold mbind, mret, M_bind, M_ret, raise, lift,
    kv_get, kv_get_recurse, kv_put, kv_delete; cbn [fst snd store calls].

(** ** Namespace addressing *)

Section Keys.

Variable service_name : string.

Lemma _key_swap_inj a b :
  _key service_name a (Some "swap") = _key service_name b (Some "swap") → a = b.
Proof.
  unfold _key. cbn [truthy]. intros H.
  rewrite !app_assoc' in H.
  apply String.app_inj in H. apply (String.app_inj "/") in H.
  by apply app_inj_r in H.
Qed.

Lemma os_path_join_inj a b1 b2 :
  String.prefix "/" b1 = false → String.prefix "/" b2 = false →
  os_path_join a b1 = os_path_join a b2 → b1 = b2.
Proof.
  unfold os_path_join. intros -> ->. destruct a as [|c a]; [done|].
  destruct (String.eqb _ "/"); intros H.
  - by apply String.app_inj in H.
  - apply String.app_inj in H. by apply (String.app_inj "/") in H.
Qed.

Lemma _ssl_cert_path_cert_key i host :
  _ssl_cert_path service_name i "cert" host ≠ _ssl_cert_path service_name i "key" host.
Proof.
  unfold _ssl_cert_path. intros H.
  destruct host as [h|]; [destruct (truthy h)|];
    by apply os_path_join_inj in H.
Qed.

End Keys.

(** ** The swap state machine *)

Section Swap.

Variable service_name : string.


Lemma sorted_pair a b :
  sorted [a; b] = if String.leb a b then [a; b] else [b; a].
Proof. reflexivity. Qed.

Lemma sorted_pair_eq a b c d :
  sorted [a; b] = sorted [c; d] ↔ (a = c ∧ b = d) ∨ (a = d ∧ b = c).
Proof.
  rewrite !sorted_pair. split.
  - destruct (String.leb a b), (String.leb c d); intros [= -> ->]; auto.
  - intros [[-> ->]|[-> ->]]; [done|].
    destruct (String.leb d c) eqn:Hdc, (String.leb c d) eqn:Hcd; try done.
    + by rewrite (String.leb_antisym _ _ Hdc Hcd).
    + destruct (String.leb_total c d); congruence.
Qed.

Lemma sorted_pair_check a b va vb :
  bool_decide (sorted [va; vb] ≠ sorted [a; b])
  = negb (bool_decide ((va = a ∧ vb = b) ∨ (va = b ∧ vb = a))).
Proof.
  destruct (decide ((va = a ∧ vb = b) ∨ (va = b ∧ vb = a))) as [H|H].
  - rewrite bool_decide_eq_false_2, bool_decide_eq_true_2; [done..|].
    intros Hne. by apply Hne, sorted_pair_eq.
  - rewrite bool_decide_eq_true_2, bool_decide_eq_false_2; [done..|].
    by intros ?%sorted_pair_eq.
Qed.

Ltac run_swap :=
  unfold swap_instances, check_swap_state, Inconsistent, SelfPointing,
    Unswapped, Swapped, swap_pointer in *; run.

(** C4 (as amended): for every pair of instances in the Inconsistent
    state, except when each of the two pointers names its own instance,
    [swap_instances] raises [InstanceAlreadySwappedError] and leaves the
    store, hence both swap pointers, as they were. *)
Theorem swap_conflict a b st :
  Inconsistent service_name st a b → ¬ SelfPointing service_name st a b →
  fst (swap_instances service_name a b st) = Raise InstanceAlreadySwappedError ∧
  store (snd (swap_instances service_name a b st)) = store st ∧
  swap_pointer service_name (snd (swap_instances service_name a b st)) a
    = swap_pointer service_name st a ∧
  swap_pointer service_name (snd (swap_instances service_name a b st)) b
    = swap_pointer service_name st b.
Proof.
  intros Hinc Hself. run_swap.
  destruct (KV.get (_key service_name a (Some "swap")) (store st)) as [va|] eqn:Ha,
           (KV.get (_key service_name b (Some "swap")) (store st)) as [vb|] eqn:Hb;
    cbn; try done.
  rewrite sorted_pair_check. rewrite bool_decide_eq_false_2; [by cbn|].
  intros [[-> ->]|[-> ->]]; [by apply Hself|by apply Hinc].
Qed.

(** Conversely the conflict error is raised in no other state. *)
Lemma swap_conflict_only a b st :
  fst (swap_instances service_name a b st) = Raise InstanceAlreadySwappedError →
  Inconsistent service_name st a b ∧ ¬ SelfPointing service_name st a b.
Proof.
  run_swap.
  destruct (KV.get (_key service_name a (Some "swap")) (store st)) as [va|] eqn:Ha,
           (KV.get (_key service_name b (Some "swap")) (store st)) as [vb|] eqn:Hb;
    cbn.
  - rewrite sorted_pair_check. case_bool_decide as H; cbn.
    + rewrite Ha. by destruct (String.eqb va b).
    + intros _. split; [intros [-> ->]|intros [[= ->] [= ->]]]; apply H; auto.
  - intros _. split; [done|]. by intros [_ ?].
  - intros _. split; [done|]. by intros [? _].
  - by rewrite Ha.
Qed.

(** The two transitions that succeed, by the state they start from. *)
Lemma swap_from_unswapped a b st :
  Unswapped service_name st a b →
  fst (swap_instances service_name a b st) = Ok tt ∧
  store (snd (swap_instances service_name a b st))
  = KV.put (_key service_name b (Some "swap")) a
      (KV.put (_key service_name a (Some "swap")) b (store st)).
Proof.
  intros [Ha Hb]. run_swap. rewrite Ha, Hb. cbn. by rewrite Ha.
Qed.

Lemma swap_from_swapped a b st :
  Swapped service_name st a b →
  fst (swap_instances service_name a b st) = Ok tt ∧
  store (snd (swap_instances service_name a b st))
  = KV.delete (_key service_name b (Some "swap"))
      (KV.delete (_key service_name a (Some "swap")) (store st)).
Proof.
  intros [Ha Hb]. run_swap. rewrite Ha, Hb. cbn.
  rewrite sorted_pair_check, bool_decide_eq_true_2 by auto. cbn.
  rewrite Ha. by rewrite String.eqb_refl.
Qed.

Lemma Swapped_sym a b st :
  Swapped service_name st a b → Swapped service_name st b a.
Proof. by intros [? ?]. Qed.

Lemma swapped_after_puts a b m st :
  a ≠ b →
  store st = KV.put (_key service_name b (Some "swap")) a
               (KV.put (_key service_name a (Some "swap")) b m) →
  Swapped service_name st a b.
Proof.
  intros Hne Hst. unfold Swapped, swap_pointer. rewrite Hst. split.
  - rewrite get_put_ne, get_put_eq; [done|].
    intros Hk. by apply Hne, (_key_swap_inj service_name).
  - by rewrite get_put_eq.
Qed.

Lemma unswapped_after_deletes a b m st :
  store st = KV.delete (_key service_name b (Some "swap"))
               (KV.delete (_key service_name a (Some "swap")) m) →
  Unswapped service_name st a b.
Proof.
  intros Hst. unfold Unswapped, swap_pointer. rewrite Hst. split.
  - destruct (decide (a = b)) as [->|Hne]; [by rewrite get_delete_eq|].
    rewrite get_delete_ne, get_delete_eq; [done|].
    intros Hk. by apply Hne, (_key_swap_inj service_name).
  - by rewrite get_delete_eq.
Qed.

Lemma Unswapped_sym a b st :
  Unswapped service_name st a b → Unswapped service_name st b a.
Proof. by intros [? ?]. Qed.

(** C5: from the Unswapped state of two distinct instances, a swap
    enters the Swapped state, and a second swap, in the same or in the
    opposite order, returns normally to the Unswapped state: both swap
    keys are absent. *)
Theorem swap_toggle a b st :
  a ≠ b → Unswapped service_name st a b →
  fst (swap_instances service_name a b st) = Ok tt ∧
  Swapped service_name (snd (swap_instances service_name a b st)) a b ∧
  fst (swap_instances service_name a b (snd (swap_instances service_name a b st)))
    = Ok tt ∧
  Unswapped service_name
    (snd (swap_instances service_name a b (snd (swap_instances service_name a b st))))
    a b ∧
  fst (swap_instances service_name b a (snd (swap_instances service_name a b st)))
    = Ok tt ∧
  Unswapped service_name
    (snd (swap_instances service_name b a (snd (swap_instances service_name a b st))))
    a b.
Proof.
  intros Hne Hun.
  destruct (swap_from_unswapped a b st Hun) as [Hr1 Hs1].
  pose proof (swapped_after_puts a b _ _ Hne Hs1) as Hsw.
  destruct (swap_from_swapped a b _ Hsw) as [Hr2 Hs2].
  destruct (swap_from_swapped b a _ (Swapped_sym _ _ _ Hsw)) as [Hr3 Hs3].
  repeat split; try done.
  - by destruct Hsw.
  - by destruct Hsw.
  - by destruct (unswapped_after_deletes _ _ _ _ Hs2).
  - by destruct (unswapped_after_deletes _ _ _ _ Hs2).
  - by destruct (unswapped_after_deletes _ _ _ _ Hs3).
  - by destruct (unswapped_after_deletes _ _ _ _ Hs3).
Qed.

End Swap.

(** The swap of the test suite: two fresh instances. *)
Lemma swap_toggle_witness :
  "myrpaas-1" ≠ "myrpaas-2" ∧
  Unswapped "test-suite-rpaas" (Client KV.empty []) "myrpaas-1" "myrpaas-2" ∧
  Unswapped "test-suite-rpaas"
    (snd (swap_instances "test-suite-rpaas" "myrpaas-2" "myrpaas-1"
            (snd (swap_instances "test-suite-rpaas" "myrpaas-1" "myrpaas-2"
                    (Client KV.empty [])))))
    "myrpaas-1" "myrpaas-2".
Proof.
  assert ("myrpaas-1" ≠ "myrpaas-2") as Hne by discriminate.
  assert (Unswapped "test-suite-rpaas" (Client KV.empty []) "myrpaas-1" "myrpaas-2")
    as Hun by (split; reflexivity).
  split; [exact Hne|]. split; [exact Hun|].
  exact (proj2 (proj2 (proj2 (proj2 (proj2
    (swap_toggle "test-suite-rpaas" "myrpaas-1" "myrpaas-2" (Client KV.empty [])
       Hne Hun)))))).
Defined.

(** An instance swapped with a peer cannot be swapped with a third one. *)
Lemma swap_conflict_witness :
  Inconsistent "rpaas"
    (Client [("rpaas/a/swap", "b"); ("rpaas/b/swap", "a")] []) "a" "c" ∧
  ¬ SelfPointing "rpaas"
    (Client [("rpaas/a/swap", "b"); ("rpaas/b/swap", "a")] []) "a" "c" ∧
  fst (swap_instances "rpaas" "a" "c"
         (Client [("rpaas/a/swap", "b"); ("rpaas/b/swap", "a")] []))
    = Raise InstanceAlreadySwappedError ∧
  store (snd (swap_instances "rpaas" "a" "c"
                (Client [("rpaas/a/swap", "b"); ("rpaas/b/swap", "a")] [])))
    = [("rpaas/a/swap", "b"); ("rpaas/b/swap", "a")].
Proof.
  assert (Inconsistent "rpaas"
            (Client [("rpaas/a/swap", "b"); ("rpaas/b/swap", "a")] []) "a" "c")
    as Hinc by exact I.
  assert (¬ SelfPointing "rpaas"
            (Client [("rpaas/a/swap", "b"); ("rpaas/b/swap", "a")] []) "a" "c")
    as Hself by (intros [H _]; discriminate H).
  split; [exact Hinc|]. split; [exact Hself|].
  destruct (swap_conflict "rpaas" "a" "c"
              (Client [("rpaas/a/swap", "b"); ("rpaas/b/swap", "a")] [])
              Hinc Hself) as (Hr & Hs & _).
  split; [exact Hr|exact Hs].
Defined.

(** C4 fails where each of the two pointers names its own instance, the
    state left by [swap_instances a a] and [swap_instances b b]: the pair
    is Inconsistent, yet the check passes and both pointers are
    rewritten. *)
Lemma swap_conflict_counterexample :
  store (snd (swap_instances "rpaas" "b" "b"
                (snd (swap_instances "rpaas" "a" "a" (Client KV.empty [])))))
    = [("rpaas/a/swap", "a"); ("rpaas/b/swap", "b")] ∧
  Inconsistent "rpaas"
    (Client [("rpaas/a/swap", "a"); ("rpaas/b/swap", "b")] []) "a" "b" ∧
  fst (swap_instances "rpaas" "a" "b"
         (Client [("rpaas/a/swap", "a"); ("rpaas/b/swap", "b")] [])) = Ok tt ∧
  store (snd (swap_instances "rpaas" "a" "b"
                (Client [("rpaas/a/swap", "a"); ("rpaas/b/swap", "b")] [])))
    = [("rpaas/a/swap", "b"); ("rpaas/b/swap", "a")].
Proof.
  split; [reflexivity|]. split; [|split; reflexivity].
  cbv. intros [H _]. discriminate H.
Qed.

(** ** The certificate store *)

Section Certificates.

Variable service_name : string.

Lemma get_certificate_present i host st c k :
  KV.get (_ssl_cert_path service_name i "cert" host) (store st) = Some c →
  KV.get (_ssl_cert_path service_name i "key" host) (store st) = Some k →
  fst (get_certificate service_name i host st) = Ok (c, k).
Proof. intros Hc Hk. unfold get_certificate. run. by rewrite Hc, Hk. Qed.

(** C9: [get_certificate] raises [CertificateNotFoundError] exactly
    when the cert key or the key key of the ssl path is absent, and
    returns the two stored values when both are present; nothing else
    is raised and the store is not changed. *)
Theorem get_certificate_not_found i host st :
  (fst (get_certificate service_name i host st) = Raise CertificateNotFoundError ↔
   KV.get (_ssl_cert_path service_name i "cert" host) (store st) = None ∨
   KV.get (_ssl_cert_path service_name i "key" host) (store st) = None) ∧
  (∀ c k,
     KV.get (_ssl_cert_path service_name i "cert" host) (store st) = Some c →
     KV.get (_ssl_cert_path service_name i "key" host) (store st) = Some k →
     fst (get_certificate service_name i host st) = Ok (c, k)) ∧
  store (snd (get_certificate service_name i host st)) = store st.
Proof.
  unfold get_certificate. run.
  destruct (KV.get (_ssl_cert_path service_name i "cert" host) (store st)) as [c|],
           (KV.get (_ssl_cert_path service_name i "key" host) (store st)) as [k|];
    cbn; (split; [split|split]); try done; try (intros [?|?]; done); auto;
    try (intros ? ? [= <-] [= <-]; done).
Qed.

Lemma set_certificate_store i cert key host st :
  fst (set_certificate service_name i cert key host st) = Ok tt ∧
  store (snd (set_certificate service_name i cert key host st))
  = KV.put (_ssl_cert_path service_name i "key" host) (replace (CR +:+ LF) LF key)
      (KV.put (_ssl_cert_path service_name i "cert" host) (replace (CR +:+ LF) LF cert)
         (store st)).
Proof. unfold set_certificate. by run. Qed.

(** C8: [set_certificate] stores each half with [replace("\r\n", "\n")]
    applied, and a [get_certificate] that follows returns these two
    texts; on ["a\r\nb"] and ["c\r\n"] they are ["a\nb"] and ["c\n"]. *)
Theorem set_get_certificate i cert key host st :
  KV.get (_ssl_cert_path service_name i "cert" host)
    (store (snd (set_certificate service_name i cert key host st)))
    = Some (replace (CR +:+ LF) LF cert) ∧
  KV.get (_ssl_cert_path service_name i "key" host)
    (store (snd (set_certificate service_name i cert key host st)))
    = Some (replace (CR +:+ LF) LF key) ∧
  fst (get_certificate service_name i host
         (snd (set_certificate service_name i cert key host st)))
    = Ok (replace (CR +:+ LF) LF cert, replace (CR +:+ LF) LF key) ∧
  fst (get_certificate service_name i None
         (snd (set_certificate service_name i
                 ("a" +:+ CR +:+ LF +:+ "b") ("c" +:+ CR +:+ LF) None st)))
    = Ok ("a" +:+ LF +:+ "b", "c" +:+ LF).
Proof.
  assert (∀ cert key host,
    KV.get (_ssl_cert_path service_name i "cert" host)
      (store (snd (set_certificate service_name i cert key host st)))
      = Some (replace (CR +:+ LF) LF cert) ∧
    KV.get (_ssl_cert_path service_name i "key" host)
      (store (snd (set_certificate service_name i cert key host st)))
      = Some (replace (CR +:+ LF) LF key)) as Hget.
  { intros cert' key' host'.
    destruct (set_certificate_store i cert' key' host' st) as [_ ->]. split.
    - rewrite get_put_ne, get_put_eq; [done|].
      intros H. by apply (_ssl_cert_path_cert_key service_name i host').
    - by rewrite get_put_eq. }
  assert (∀ cert key host,
    fst (get_certificate service_name i host
           (snd (set_certificate service_name i cert key host st)))
    = Ok (replace (CR +:+ LF) LF cert, replace (CR +:+ LF) LF key)) as Hgc.
  { intros cert' key' host'. destruct (Hget cert' key' host') as [Hc Hk].
    by apply get_certificate_present. }
  destruct (Hget cert key host) as [Hc Hk].
  split; [done|]. split; [done|]. split; [apply Hgc|].
  by rewrite Hgc.
Qed.

End Certificates.

(** ** One-character replacement and splitting *)

Section CharFacts.

Implicit Types (a b c : ascii) (s t : string).

Lemma str_in_char a c s :
  str_in (String a "") (String c s) = bool_decide (a = c) || str_in (String a "") s.
Proof. cbn [str_in]. by rewrite prefix_cons, prefix_nil, andb_true_r. Qed.

Lemma replace_char_cons a b c s :
  replace (String a "") (String b "") (String c s)
  = String (if bool_decide (a = c) then b else c)
           (replace (String a "") (String b "") s).
Proof.
  unfold replace. cbn [replace_from].
  rewrite prefix_cons, prefix_nil, andb_true_r.
  by case_bool_decide.
Qed.

Lemma replace_char_absent a b s :
  str_in (String a "") s = false → replace (String a "") (String b "") s = s.
Proof.
  induction s as [|c s IH]; [done|].
  rewrite str_in_char, replace_char_cons. intros [Hc Hs]%orb_false_iff.
  by rewrite Hc, IH.
Qed.

Lemma replace_char_roundtrip a b s :
  str_in (String b "") s = false →
  replace (String b "") (String a "") (replace (String a "") (String b "") s) = s.
Proof.
  induction s as [|c s IH]; [done|].
  rewrite str_in_char, !replace_char_cons. intros [Hc Hs]%orb_false_iff.
  rewrite IH by done. f_equal.
  destruct (decide (a = c)) as [->|Hac].
  - by rewrite (bool_decide_eq_true_2 (c = c)), bool_decide_eq_true_2.
  - by rewrite (bool_decide_eq_false_2 (a = c)), Hc.
Qed.

Lemma replace_char_present a b s :
  str_in (String a "") s = true →
  str_in (String b "") (replace (String a "") (String b "") s) = true.
Proof.
  induction s as [|c s IH]; [done|].
  rewrite str_in_char, replace_char_cons, str_in_char.
  intros [Hc|Hs]%orb_true_iff.
  - rewrite Hc. by rewrite bool_decide_eq_true_2.
  - by rewrite IH, orb_true_r.
Qed.

Lemma replace_char_gone a b s :
  a ≠ b → str_in (String a "") (replace (String a "") (String b "") s) = false.
Proof.
  intros Hab. induction s as [|c s IH]; [done|].
  rewrite replace_char_cons, str_in_char, IH, orb_false_r.
  destruct (decide (a = c)) as [->|Hac].
  - by rewrite (bool_decide_eq_true_2 (c = c)), bool_decide_eq_false_2.
  - by rewrite (bool_decide_eq_false_2 (a = c)), bool_decide_eq_false_2.
Qed.

Lemma replace_char_truthy a b s :
  truthy (replace (String a "") (String b "") s) = truthy s.
Proof. destruct s; [done|]. by rewrite replace_char_cons. Qed.

Lemma split_nonempty c s : split c s ≠ [].
Proof.
  destruct s as [|d s]; [done|]. cbn [split].
  destruct (Ascii.eqb d c); [done|]. by destruct (split c s).
Qed.

Lemma split_cons_ne c d s :
  d ≠ c → ∃ h tl, split c s = h :: tl ∧ split c (String d s) = String d h :: tl.
Proof.
  intros Hne. cbn [split]. apply Ascii.eqb_neq in Hne. rewrite Hne.
  destruct (split c s) as [|h tl] eqn:Hs; [by apply split_nonempty in Hs|eauto].
Qed.

(** [(s + sep + t).split(sep) == s.split(sep) + t.split(sep)] *)
Lemma split_app_sep c s t :
  split c (s +:+ String c t) = split c s ++ split c t.
Proof.
  induction s as [|d s IH].
  - rewrite app_nil_l. cbn [split]. by rewrite Ascii.eqb_refl.
  - rewrite app_cons. destruct (decide (d = c)) as [->|Hne].
    + cbn [split]. rewrite Ascii.eqb_refl. by rewrite IH.
    + destruct (split_cons_ne c d s Hne) as (h & t' & Hs & ->).
      destruct (split_cons_ne c d (s +:+ String c t) Hne) as (h2 & t2 & Hs2 & ->).
      rewrite IH, Hs in Hs2. by injection Hs2 as <- <-.
Qed.

Lemma split_no_sep c s : str_in (String c "") s = false → split c s = [s].
Proof.
  induction s as [|d s IH]; [done|].
  rewrite str_in_char. intros [Hc Hs]%orb_false_iff.
  apply bool_decide_eq_false_1 in Hc.
  destruct (split_cons_ne c d s) as (h & tl & Hs' & ->); [done|].
  rewrite IH in Hs' by done. by injection Hs' as <- <-.
Qed.

Lemma join_cons sep x y l :
  join sep (x :: y :: l) = x +:+ sep +:+ join sep (y :: l).
Proof. reflexivity. Qed.

(** [sep.join(l).split(sep) == l] for a non-empty list of strings without [sep] *)
Lemma split_join c l :
  l ≠ [] → Forall (λ s, str_in (String c "") s = false) l →
  split c (join (String c "") l) = l.
Proof.
  intros Hl Hall. induction Hall as [|x l Hx Hall IH]; [done|].
  destruct l as [|y l].
  - cbn. by apply split_no_sep.
  - rewrite join_cons.
    change (x +:+ String c "" +:+ join (String c "") (y :: l))
      with (x +:+ String c (join (String c "") (y :: l))).
    rewrite split_app_sep, IH by done. by rewrite split_no_sep.
Qed.

End CharFacts.

(** ** The ACL registry *)

Section AclSource.

(** The source of [_normalize_acl_src], when it is a non-empty string. *)
Lemma _normalize_acl_src_nonempty s :
  truthy s = true →
  _normalize_acl_src (Some s)
  = Some (if str_in "_" s then replace "_" "/" s else replace "/" "_" s).
Proof. unfold _normalize_acl_src. intros ->. by destruct (str_in "_" s). Qed.

Lemma acl_src_encode s :
  truthy s = true → str_in "_" s = false →
  _normalize_acl_src (Some s) = Some (replace "/" "_" s).
Proof. intros Hs Hu. by rewrite (_normalize_acl_src_nonempty s Hs), Hu. Qed.

Lemma acl_src_decode s :
  truthy s = true → str_in "_" s = false →
  _normalize_acl_src (Some (replace "/" "_" s)) = Some s.
Proof.
  intros Hs Hu.
  rewrite _normalize_acl_src_nonempty by by rewrite replace_char_truthy.
  destruct (str_in "/" s) eqn:Hsl.
  - rewrite (replace_char_present "/" "_" s Hsl).
    by rewrite (replace_char_roundtrip "/" "_" s Hu).
  - rewrite !(replace_char_absent "/" "_" s Hsl). by rewrite Hu.
Qed.

(** C6 (as amended): for every non-empty source [s] without underscore
    the encoding is [s] with every ["/"] replaced by ["_"], and decoding
    it, by the same function, gives [s] back. *)
Theorem acl_src_roundtrip s :
  truthy s = true → str_in "_" s = false →
  _normalize_acl_src (Some s) = Some (replace "/" "_" s) ∧
  _normalize_acl_src (_normalize_acl_src (Some s)) = Some s.
Proof.
  intros Hs Hu. rewrite (acl_src_encode s Hs Hu). split; [done|].
  by apply acl_src_decode.
Qed.

Lemma acl_src_roundtrip_witness :
  truthy "10.0.0.1/32" = true ∧ str_in "_" "10.0.0.1/32" = false ∧
  _normalize_acl_src (Some "10.0.0.1/32") = Some "10.0.0.1_32" ∧
  _normalize_acl_src (_normalize_acl_src (Some "10.0.0.1/32")) = Some "10.0.0.1/32".
Proof.
  split; [reflexivity|]. split; [reflexivity|].
  exact (acl_src_roundtrip "10.0.0.1/32" eq_refl eq_refl).
Defined.

(** C6 fails on the empty source, which has no underscore: the guard
    [if not src: return] answers [None] for it. *)
Lemma acl_src_roundtrip_counterexample :
  str_in "_" "" = false ∧
  _normalize_acl_src (_normalize_acl_src (Some "")) = None ∧
  _normalize_acl_src (_normalize_acl_src (Some "")) ≠ Some "".
Proof. split; [reflexivity|]. split; [reflexivity|discriminate]. Qed.

(** With an underscore in the source the two passes do not give it back. *)
Lemma acl_src_with_underscore :
  _normalize_acl_src (_normalize_acl_src (Some "my_net/8")) = Some "my_net_8".
Proof. reflexivity. Qed.

End AclSource.

Section SetFacts.

Implicit Types (X Y : gset string) (a d : string).

Lemma list_to_set_one_union d1 d2 :
  list_to_set [d1] ∪ {[d2]} = ({[d1; d2]} : gset string).
Proof. by rewrite list_to_set_cons, list_to_set_nil, (right_id_L ∅ (∪)). Qed.

Lemma elem_of_pair a d1 d2 : a ∈ ({[d1; d2]} : gset string) → a = d1 ∨ a = d2.
Proof. by rewrite elem_of_union, !elem_of_singleton. Qed.

(** [if a in X: X.remove(a)] leaves [X] without [a]. *)
Lemma remove_if_present a X :
  (if bool_decide (a ∈ X) then X ∖ {[a]} else X) = X ∖ {[a]}.
Proof.
  case_bool_decide as Ha; [done|]. symmetry.
  by apply difference_disjoint_L, disjoint_singleton_r.
Qed.

Lemma difference_all X Y : X ⊆ Y → X ∖ Y = ∅.
Proof. apply subseteq_empty_difference_L. Qed.

End SetFacts.

Section Acl.

Variable service_name : string.
Variable set_order : gset string → list string.
Hypothesis set_order_perm : ∀ X, set_order X ≡ₚ elements X.

Implicit Types (k v : string) (m : KV.t).

(** The key of an encoded source ends in that source. *)
Lemma _acl_key_last i e :
  truthy e = true → str_in "/" e = false →
  last_item (split "/" (_acl_key service_name i (Some e))) = Some e.
Proof.
  intros He Hsl.
  assert (_acl_key service_name i (Some e)
          = ((service_name +:+ "/" +:+ i) +:+ "/acl") +:+ String "/" e) as ->.
  { unfold _acl_key, _key. rewrite He.
    change (truthy ("acl/" +:+ e)) with true. cbn match.
    rewrite (app_assoc' _ "/acl"). reflexivity. }
  rewrite split_app_sep, (split_no_sep "/" e Hsl).
  unfold last_item. by rewrite last_snoc.
Qed.

Lemma find_acl_network_run i src st :
  fst (find_acl_network service_name i src st)
  = Ok (map (λ acl, AclItem (_normalize_acl_src (last_item (split "/" (fst acl))))
                            (split "," (snd acl)))
          (KV.get_recurse (_acl_key service_name i (_normalize_acl_src src)) (store st))) ∧
  store (snd (find_acl_network service_name i src st)) = store st.
Proof. unfold find_acl_network. by run. Qed.

Lemma store_acl_network_run i s d st :
  fst (store_acl_network service_name set_order i s d st) = Ok tt ∧
  store (snd (store_acl_network service_name set_order i s d st))
  = KV.put (_acl_key service_name i (_normalize_acl_src (Some s)))
      (join ","
         match KV.get_recurse (_acl_key service_name i (_normalize_acl_src (Some s)))
                 (store st) with
         | acl :: _ => set_order (list_to_set (split "," (snd acl)) ∪ {[d]})
         | [] => [d]
         end)
      (store st).
Proof.
  unfold store_acl_network, find_acl_network. run.
  by destruct (KV.get_recurse _ (store st)).
Qed.

Lemma list_to_set_set_order (X : gset string) : list_to_set (set_order X) = X.
Proof.
  apply set_eq. intros x. rewrite elem_of_list_to_set, set_order_perm.
  apply elem_of_elements.
Qed.

(** For a non-empty source [s] without underscore and destinations
    [d1], [d2] without comma, starting from a store in which no key
    begins with the ACL key of [s], storing [d1] and then [d2] makes
    [find_acl_network] return the single entry of source [s] whose
    destinations, without repetition and in the order of set iteration,
    are the set of [d1] and [d2]. *)
Theorem store_acl_network_accumulates i s d1 d2 st :
  truthy s = true → str_in "_" s = false →
  str_in "," d1 = false → str_in "," d2 = false →
  KV.get_recurse (_acl_key service_name i (_normalize_acl_src (Some s))) (store st) = [] →
  ∃ dsts,
    fst (find_acl_network service_name i (Some s)
           (snd (store_acl_network service_name set_order i s d2
                   (snd (store_acl_network service_name set_order i s d1 st)))))
    = Ok [AclItem (Some s) dsts] ∧
    list_to_set dsts = ({[d1; d2]} : gset string) ∧
    NoDup dsts.
Proof.
  intros Hs Hu Hd1 Hd2 Hfresh.
  pose proof (acl_src_encode s Hs Hu) as Henc.
  pose proof (acl_src_decode s Hs Hu) as Hdec.
  assert (truthy (replace "/" "_" s) = true) as He by by rewrite replace_char_truthy.
  assert (str_in "/" (replace "/" "_" s) = false) as Hsl by by apply replace_char_gone.
  pose proof (_acl_key_last i _ He Hsl) as Hlast.
  destruct (store_acl_network_run i s d1 st) as [_ Hs1].
  destruct (store_acl_network_run i s d2
              (snd (store_acl_network service_name set_order i s d1 st))) as [_ Hs2].
  destruct (find_acl_network_run i (Some s)
              (snd (store_acl_network service_name set_order i s d2
                      (snd (store_acl_network service_name set_order i s d1 st)))))
    as [Hf _].
  rewrite Henc in *. rewrite Hfresh in Hs1.
  set (K := _acl_key service_name i (Some (replace "/" "_" s))) in *.
  assert (String.prefix K K = true) as HK by apply prefix_refl.
  rewrite Hs1, (get_recurse_put_fresh K K _ _ HK Hfresh) in Hs2.
  cbn [snd] in Hs2. rewrite put_put in Hs2.
  rewrite Hs2, (get_recurse_put_fresh K K _ _ HK Hfresh) in Hf.
  cbn [map fst snd] in Hf. rewrite Hlast, Hdec in Hf.
  change (join "," [d1]) with d1 in Hf.
  rewrite (split_no_sep "," d1 Hd1) in Hf.
  set (X := (list_to_set [d1] ∪ {[d2]} : gset string)) in *.
  assert (X = {[d1; d2]}) as HX by apply list_to_set_one_union.
  assert (split "," (join "," (set_order X)) = set_order X) as Hsj.
  { apply split_join.
    - intros Hnil. assert (d2 ∈ set_order X) as Hin.
      { rewrite set_order_perm. apply elem_of_elements. rewrite HX.
        apply elem_of_union_r, elem_of_singleton. reflexivity. }
      rewrite Hnil in Hin. by apply elem_of_nil in Hin.
    - apply Forall_forall. intros x Hx.
      rewrite set_order_perm in Hx. apply elem_of_elements in Hx.
      rewrite HX in Hx. by apply elem_of_pair in Hx as [-> | ->]. }
  rewrite Hsj in Hf. exists (set_order X). split; [done|]. split.
  - by rewrite list_to_set_set_order.
  - rewrite set_order_perm. apply NoDup_elements.
Qed.

End Acl.

(** The accumulation of the test suite, with the order of [elements]. *)
Lemma store_acl_network_accumulates_witness :
  (∀ X : gset string, elements X ≡ₚ elements X) ∧
  truthy "10.0.0.1/32" = true ∧ str_in "_" "10.0.0.1/32" = false ∧
  str_in "," "192.168.0.0/24" = false ∧ str_in "," "192.168.1.0/24" = false ∧
  KV.get_recurse (_acl_key "test-suite-rpaas" "myrpaas"
                    (_normalize_acl_src (Some "10.0.0.1/32")))
    (store (Client KV.empty [])) = [] ∧
  ∃ dsts,
    fst (find_acl_network "test-suite-rpaas" "myrpaas" (Some "10.0.0.1/32")
           (snd (store_acl_network "test-suite-rpaas" elements "myrpaas"
                   "10.0.0.1/32" "192.168.1.0/24"
                   (snd (store_acl_network "test-suite-rpaas" elements "myrpaas"
                           "10.0.0.1/32" "192.168.0.0/24" (Client KV.empty []))))))
    = Ok [AclItem (Some "10.0.0.1/32") dsts] ∧
    list_to_set dsts = ({["192.168.0.0/24"; "192.168.1.0/24"]} : gset string) ∧
    NoDup dsts.
Proof.
  split; [intros X; reflexivity|].
  do 5 (split; [reflexivity|]).
  exact (store_acl_network_accumulates "test-suite-rpaas" elements
           (λ X, reflexivity (elements X)) "myrpaas"
           "10.0.0.1/32" "192.168.0.0/24" "192.168.1.0/24" (Client KV.empty [])
           eq_refl eq_refl eq_refl eq_refl eq_refl).
Defined.

(** C7, on a source whose key is the beginning of the key of another
    source: the store has an entry for [10.0.0.0/24] and none for
    [10.0.0.0/2]; the recursive read of [find_acl_network] returns the
    entry of the other source, [store_acl_network] takes the
    destinations of that first entry, and after the two stores
    [find_acl_network] returns two entries, the first with the
    destination of the other source among its own. *)
Theorem store_acl_network_prefix_leak :
  KV.get (_acl_key "rpaas" "myrpaas" (_normalize_acl_src (Some "10.0.0.0/2")))
    [("rpaas/myrpaas/acl/10.0.0.0_24", "192.168.0.0/24")] = None ∧
  fst (find_acl_network "rpaas" "myrpaas" (Some "10.0.0.0/2")
         (Client [("rpaas/myrpaas/acl/10.0.0.0_24", "192.168.0.0/24")] []))
    = Ok [AclItem (Some "10.0.0.0/24") ["192.168.0.0/24"]] ∧
  fst (find_acl_network "rpaas" "myrpaas" (Some "10.0.0.0/2")
         (snd (store_acl_network "rpaas" elements "myrpaas" "10.0.0.0/2" "10.2.0.0/16"
                 (snd (store_acl_network "rpaas" elements "myrpaas" "10.0.0.0/2"
                         "10.1.0.0/16"
                         (Client [("rpaas/myrpaas/acl/10.0.0.0_24", "192.168.0.0/24")]
                                 []))))))
    = Ok [AclItem (Some "10.0.0.0/2") (elements ({["192.168.0.0/24"; "10.1.0.0/16"; "10.2.0.0/16"]} : gset string));
          AclItem (Some "10.0.0.0/24") ["192.168.0.0/24"]].
Proof. split; [reflexivity|]. split; [reflexivity|]. vm_compute. reflexivity. Qed.

(** A destination with a comma is read back as two destinations. *)
Lemma store_acl_network_comma :
  fst (find_acl_network "rpaas" "myrpaas" (Some "10.0.0.1/32")
         (snd (store_acl_network "rpaas" elements "myrpaas" "10.0.0.1/32" "a,b"
                 (Client KV.empty []))))
    = Ok [AclItem (Some "10.0.0.1/32") ["a"; "b"]].
Proof. reflexivity. Qed.

(** A source with an underscore is stored below a nested key and comes
    back as its last segment. *)
Lemma store_acl_network_underscore :
  fst (find_acl_network "rpaas" "myrpaas" (Some "my_net")
         (snd (store_acl_network "rpaas" elements "myrpaas" "my_net" "10.1.0.0/16"
                 (Client KV.empty []))))
    = Ok [AclItem (Some "net") ["10.1.0.0/16"]].
Proof. reflexivity. Qed.

(** ** Upstream set management *)

#[local] Arguments _set_header_footer : simpl never.
#[local] Arguments _upstream_key : simpl never.

Section Upstream.

Variable service_name : string.
Variable host_from_destination : option string → outcome (option string * option N).
Variable set_order : gset string → list string.

Lemma list_upstream_run i u st :
  ∃ servers,
    list_upstream service_name i u st
    = (Ok servers,
       Client (store st) (calls st ++ [OpGet (_upstream_key service_name i u)])).
Proof.
  unfold list_upstream. run.
  destruct (KV.get (_upstream_key service_name i u) (store st)) as [value|];
    [|by eexists].
  unfold _set_header_footer.
  destruct (String.eqb _ ""); by eexists.
Qed.

Lemma list_upstream_absent i u st :
  KV.get (_upstream_key service_name i u) (store st) = None →
  list_upstream service_name i u st
  = (Ok ∅, Client (store st) (calls st ++ [OpGet (_upstream_key service_name i u)])).
Proof. intros H. unfold list_upstream. run. by rewrite H. Qed.

Lemma list_upstream_empty_frame i u st :
  KV.get (_upstream_key service_name i u) (store st)
    = Some (begin_block "upstream" +:+ end_block "upstream") →
  fst (list_upstream service_name i u st) = Ok ∅.
Proof.
  intros H. unfold list_upstream. run. rewrite H.
  by rewrite unframe_empty_frame.
Qed.

Lemma _remove_upstream_run i u st :
  _remove_upstream service_name i u st
  = (Ok tt,
     Client (KV.put (_upstream_key service_name i u)
               (begin_block "upstream" +:+ end_block "upstream") (store st))
            (calls st ++ [OpPut (_upstream_key service_name i u)
                            (begin_block "upstream" +:+ end_block "upstream")])).
Proof. reflexivity. Qed.

(** [remove_server_upstream] after its read, in terms of the set read
    and of the addresses taken out. *)
Lemma remove_server_upstream_run i u server st servers st1 gone :
  list_upstream service_name i u st = (Ok servers, st1) →
  removed_addresses host_from_destination server = Ok gone →
  remove_server_upstream service_name host_from_destination set_order i u server st
  = if bool_decide (size (servers ∖ gone) < 1)
    then _remove_upstream service_name i u st1
    else _save_upstream service_name set_order i u (servers ∖ gone) st1.
Proof.
  intros Hl Hg. unfold remove_server_upstream, removed_addresses in *.
  unfold mbind, M_bind at 1. rewrite Hl.
  destruct server as [|s|l].
  - destruct (server_address host_from_destination None) as [a|e]; [|done].
    injection Hg as <-. run.
    rewrite remove_if_present. by destruct (bool_decide _).
  - destruct (server_address host_from_destination (Some s)) as [a|e]; [|done].
    injection Hg as <-. run.
    rewrite remove_if_present. by destruct (bool_decide _).
  - destruct (server_addresses host_from_destination l) as [l'|e]; [|done].
    injection Hg as <-. run. by destruct (bool_decide _).
Qed.

(** C1 (as amended): when [remove_server_upstream] takes out every
    server that the upstream still has, it returns normally, the key of
    the upstream stays in the store with the empty frame (the begin line
    directly followed by the end line) as its value, and [list_upstream]
    returns the empty set. *)
Theorem remove_last_server_upstream i u server st servers gone :
  fst (list_upstream service_name i u st) = Ok servers →
  removed_addresses host_from_destination server = Ok gone →
  servers ⊆ gone →
  fst (remove_server_upstream service_name host_from_destination set_order
         i u server st) = Ok tt ∧
  KV.get (_upstream_key service_name i u)
    (store (snd (remove_server_upstream service_name host_from_destination set_order
                   i u server st)))
    = Some (begin_block "upstream" +:+ end_block "upstream") ∧
  fst (list_upstream service_name i u
         (snd (remove_server_upstream service_name host_from_destination set_order
                 i u server st))) = Ok ∅.
Proof.
  intros Hl Hg Hsub.
  destruct (list_upstream_run i u st) as [servers' Hrun].
  rewrite Hrun in Hl. injection Hl as ->.
  rewrite (remove_server_upstream_run _ _ _ _ _ _ _ Hrun Hg).
  rewrite (difference_all servers gone Hsub).
  rewrite size_empty, bool_decide_eq_true_2 by lia.
  rewrite _remove_upstream_run. cbn [fst snd store].
  split; [done|]. split; [apply get_put_eq|].
  apply list_upstream_empty_frame. cbn [store]. apply get_put_eq.
Qed.

(** [add_server_upstream] with [None], an empty string or an empty list
    returns at once: no request is made. *)
Lemma add_server_upstream_falsy i u server st :
  server_truthy server = false →
  add_server_upstream service_name host_from_destination set_order i u server st
  = (Ok tt, st).
Proof. intros H. unfold add_server_upstream. by rewrite H. Qed.

(** [remove_server_upstream] has no such guard: whatever its [server]
    argument, it starts by reading the key of the upstream. *)
Lemma remove_server_upstream_reads i u server st :
  ∃ rest,
    calls (snd (remove_server_upstream service_name host_from_destination set_order
                  i u server st))
    = calls st ++ OpGet (_upstream_key service_name i u) :: rest.
Proof.
  destruct (list_upstream_run i u st) as [servers Hrun].
  destruct (removed_addresses host_from_destination server) as [gone|e] eqn:Hg.
  - rewrite (remove_server_upstream_run _ _ _ _ _ _ _ Hrun Hg).
    case_bool_decide.
    + rewrite _remove_upstream_run. cbn [snd calls].
      rewrite <- app_assoc. by eexists.
    + unfold _save_upstream, _set_header_footer. run.
      destruct (truthy _); cbn [snd calls]; rewrite <- app_assoc; by eexists.
  - exists []. unfold remove_server_upstream, removed_addresses in *.
    unfold mbind, M_bind at 1. rewrite Hrun.
    destruct server as [|s|l]; run.
    + by destruct (server_address host_from_destination None).
    + by destruct (server_address host_from_destination (Some s)).
    + by destruct (server_addresses host_from_destination l).
Qed.

(** C2, at an empty list on an upstream that has no key: a read and a
    write are issued, and the write creates the key. *)
Theorem remove_server_upstream_empty_list i u st :
  KV.get (_upstream_key service_name i u) (store st) = None →
  remove_server_upstream service_name host_from_destination set_order
    i u (SrvList []) st
  = (Ok tt,
     Client (KV.put (_upstream_key service_name i u)
               (begin_block "upstream" +:+ end_block "upstream") (store st))
            (calls st ++ [OpGet (_upstream_key service_name i u);
                          OpPut (_upstream_key service_name i u)
                            (begin_block "upstream" +:+ end_block "upstream")])).
Proof.
  intros H.
  rewrite (remove_server_upstream_run i u (SrvList []) st ∅ _ ∅
             (list_upstream_absent i u st H) eq_refl).
  rewrite bool_decide_eq_true_2 by (rewrite difference_diag_L, size_empty; lia).
  rewrite _remove_upstream_run. cbn [store calls]. by rewrite <- app_assoc.
Qed.

End Upstream.

(** The upstream of the test suite, with one server, as
    [add_server_upstream] leaves it. *)
Lemma add_server_upstream_one :
  store (snd (add_server_upstream "test-suite-rpaas" bare_host elements
                "myrpaas" "upstream1" (SrvStr "server1") (Client KV.empty [])))
  = [("test-suite-rpaas/myrpaas/upstream/upstream1",
      begin_block "upstream" +:+ "server1" +:+ LF +:+ end_block "upstream")].
Proof. vm_compute. reflexivity. Qed.

Lemma remove_last_server_upstream_witness :
  fst (list_upstream "test-suite-rpaas" "myrpaas" "upstream1"
         (Client [("test-suite-rpaas/myrpaas/upstream/upstream1",
                   begin_block "upstream" +:+ "server1" +:+ LF +:+ end_block "upstream")]
                 [])) = Ok {["server1"]} ∧
  removed_addresses bare_host (SrvStr "server1") = Ok {["server1"]} ∧
  ({["server1"]} : gset string) ⊆ {["server1"]} ∧
  fst (list_upstream "test-suite-rpaas" "myrpaas" "upstream1"
         (snd (remove_server_upstream "test-suite-rpaas" bare_host elements
                 "myrpaas" "upstream1" (SrvStr "server1")
                 (Client [("test-suite-rpaas/myrpaas/upstream/upstream1",
                           begin_block "upstream" +:+ "server1" +:+ LF
                             +:+ end_block "upstream")] [])))) = Ok ∅.
Proof.
  assert (fst (list_upstream "test-suite-rpaas" "myrpaas" "upstream1"
            (Client [("test-suite-rpaas/myrpaas/upstream/upstream1",
                      begin_block "upstream" +:+ "server1" +:+ LF
                        +:+ end_block "upstream")] [])) = Ok {["server1"]}) as Hl
    by (vm_compute; reflexivity).
  assert (removed_addresses bare_host (SrvStr "server1") = Ok {["server1"]}) as Hg
    by reflexivity.
  assert (({["server1"]} : gset string) ⊆ {["server1"]}) as Hsub by reflexivity.
  split; [exact Hl|]. split; [exact Hg|]. split; [exact Hsub|].
  exact (proj2 (proj2
    (remove_last_server_upstream "test-suite-rpaas" bare_host elements
       "myrpaas" "upstream1" (SrvStr "server1") _ _ _ Hl Hg Hsub))).
Defined.

(** C1 fails on the key: after the last server is removed the key of the
    upstream is still in the store, with the empty frame as its value. *)
Lemma remove_last_server_upstream_counterexample :
  fst (list_upstream "test-suite-rpaas" "myrpaas" "upstream1"
         (Client [("test-suite-rpaas/myrpaas/upstream/upstream1",
                   begin_block "upstream" +:+ "server1" +:+ LF +:+ end_block "upstream")]
                 [])) = Ok {["server1"]} ∧
  KV.get "test-suite-rpaas/myrpaas/upstream/upstream1"
    (store (snd (remove_server_upstream "test-suite-rpaas" bare_host elements
                   "myrpaas" "upstream1" (SrvStr "server1")
                   (Client [("test-suite-rpaas/myrpaas/upstream/upstream1",
                             begin_block "upstream" +:+ "server1" +:+ LF
                               +:+ end_block "upstream")] []))))
    = Some (begin_block "upstream" +:+ end_block "upstream") ∧
  Some (begin_block "upstream" +:+ end_block "upstream") ≠ None.
Proof.
  split; [vm_compute; reflexivity|]. split; [vm_compute; reflexivity|discriminate].
Qed.

Lemma remove_server_upstream_empty_list_witness :
  KV.get (_upstream_key "test-suite-rpaas" "myrpaas" "upstream1")
    (store (Client KV.empty [])) = None ∧
  remove_server_upstream "test-suite-rpaas" bare_host elements
    "myrpaas" "upstream1" (SrvList []) (Client KV.empty [])
  = (Ok tt,
     Client [("test-suite-rpaas/myrpaas/upstream/upstream1",
              begin_block "upstream" +:+ end_block "upstream")]
            [OpGet "test-suite-rpaas/myrpaas/upstream/upstream1";
             OpPut "test-suite-rpaas/myrpaas/upstream/upstream1"
               (begin_block "upstream" +:+ end_block "upstream")]).
Proof.
  split; [reflexivity|].
  exact (remove_server_upstream_empty_list "test-suite-rpaas" bare_host elements
           "myrpaas" "upstream1" (Client KV.empty []) eq_refl).
Defined.

(** ** Blocks *)

#[local] Arguments _block_key : simpl never.

Section Blocks.

Variable service_name : string.

Implicit Types (k v b : string) (m : KV.t).

Lemma remove_block_run i b st :
  remove_block service_name i b st
  = (Ok tt,
     Client (KV.put (_block_key service_name i (Some b))
               (begin_block b +:+ end_block b) (store st))
            (calls st ++ [OpPut (_block_key service_name i (Some b))
                            (begin_block b +:+ end_block b)])).
Proof. reflexivity. Qed.

Lemma list_blocks_run i bn st :
  fst (list_blocks service_name i bn st)
  = list_blocks_loop (KV.get_recurse (_block_key service_name i bn) (store st)).
Proof. reflexivity. Qed.

(** No entry of the listing has an empty content. *)
Lemma list_blocks_loop_nonempty blocks result :
  list_blocks_loop blocks = Ok result →
  Forall (λ e, content e ≠ "") result.
Proof.
  revert result. induction blocks as [|[k v] blocks IH]; intros result.
  - intros [= <-]. constructor.
  - cbn [list_blocks_loop].
    destruct (last_but_one (split "/" k)) as [b|]; [|done].
    destruct (_set_header_footer (Some v) b true) as [value|]; [|done].
    destruct (list_blocks_loop blocks) as [l|]; [|done].
    destruct (truthy value) eqn:Hv; cbn; intros [= <-].
    + constructor; [|by apply IH]. cbn. by intros ->.
    + by apply IH.
Qed.

(** An entry whose value unframes to the empty string is passed over. *)
Lemma list_blocks_loop_skip k v b blocks :
  last_but_one (split "/" k) = Some b →
  _set_header_footer (Some v) b true = Ok "" →
  list_blocks_loop ((k, v) :: blocks) = list_blocks_loop blocks.
Proof.
  intros Hk Hv. cbn [list_blocks_loop]. rewrite Hk, Hv.
  by destruct (list_blocks_loop blocks).
Qed.

(** The key of a block whose name has no ["/"] has that name as its
    last segment but one. *)
Lemma _block_key_name i b :
  truthy b = true → str_in "/" b = false →
  last_but_one (split "/" (_block_key service_name i (Some b))) = Some b.
Proof.
  intros Hb Hsl.
  assert (_block_key service_name i (Some b)
          = (((service_name +:+ "/" +:+ i) +:+ "/blocks") +:+ String "/" b)
              +:+ String "/" "ROOT") as ->.
  { unfold _block_key, _key. rewrite Hb.
    change (truthy ("blocks/" +:+ b +:+ "/" +:+ "ROOT")) with true. cbn match.
    rewrite !app_assoc'. reflexivity. }
  rewrite !split_app_sep, (split_no_sep "/" b Hsl).
  unfold last_but_one. rewrite !reverse_app. reflexivity.
Qed.

(** Writing an entry that the listing passes over is, for the listing,
    the same as deleting its key. *)
Lemma list_blocks_loop_put_skip p k v b m :
  KV.wf m = true →
  last_but_one (split "/" k) = Some b →
  _set_header_footer (Some v) b true = Ok "" →
  list_blocks_loop (KV.get_recurse p (KV.put k v m))
  = list_blocks_loop (KV.get_recurse p (KV.delete k m)).
Proof.
  intros Hwf Hk Hv.
  assert (∀ rest, list_blocks_loop (KV.get_recurse p ((k, v) :: rest))
                  = list_blocks_loop (KV.get_recurse p rest)) as Hskip.
  { intros rest. unfold KV.get_recurse. cbn [List.filter fst].
    destruct (String.prefix p k); [|done]. by apply list_blocks_loop_skip with b. }
  induction m as [|[k' v'] m IH].
  - apply Hskip.
  - cbn [KV.wf] in Hwf. apply andb_true_iff in Hwf as [Hlt Hwf].
    unfold KV.put; fold KV.put. unfold KV.delete; fold (KV.delete k).
    cbn [List.filter fst].
    destruct (String.eqb_spec k' k) as [->|Hne]; cbn [negb].
    + rewrite Hskip. fold (KV.delete k m). by rewrite delete_below.
    + destruct (String.ltb k k') eqn:Hkk.
      * rewrite Hskip. fold (KV.delete k m).
        rewrite delete_below by by apply forallb_ltb_trans with k'.
        done.
      * fold (KV.delete k m). unfold KV.get_recurse in *. cbn [List.filter fst].
        destruct (String.prefix p k'); [|by apply IH].
        cbn [list_blocks_loop]. by rewrite IH.
Qed.

(** C10 (as amended): for a non-empty block name without ["/"],
    [remove_block] keeps the key of the block in the store, with the
    empty frame (the begin line directly followed by the end line) as
    its value; [list_blocks] passes over every entry whose content is
    empty after unframing, so that its result is the one it has on the
    store without that key: the removed block is not listed. *)
Theorem remove_block_not_listed i b bn st :
  truthy b = true → str_in "/" b = false → KV.wf (store st) = true →
  fst (remove_block service_name i b st) = Ok tt ∧
  KV.get (_block_key service_name i (Some b))
    (store (snd (remove_block service_name i b st)))
    = Some (begin_block b +:+ end_block b) ∧
  fst (list_blocks service_name i bn (snd (remove_block service_name i b st)))
    = fst (list_blocks service_name i bn
             (Client (KV.delete (_block_key service_name i (Some b)) (store st))
                     (calls st))) ∧
  (∀ result,
     fst (list_blocks service_name i bn (snd (remove_block service_name i b st)))
       = Ok result →
     Forall (λ e, content e ≠ "") result).
Proof.
  intros Hb Hsl Hwf. rewrite remove_block_run. cbn [fst snd store].
  split; [done|]. split; [apply get_put_eq|]. split.
  - rewrite !list_blocks_run. cbn [store].
    apply list_blocks_loop_put_skip with b; [done|by apply _block_key_name|].
    apply unframe_empty_frame.
  - intros result. rewrite list_blocks_run. apply list_blocks_loop_nonempty.
Qed.

(** Whatever the name, the key stays, with the empty frame. *)
Lemma remove_block_keeps_key i b st :
  KV.get (_block_key service_name i (Some b))
    (store (snd (remove_block service_name i b st)))
  = Some (begin_block b +:+ end_block b).
Proof. rewrite remove_block_run. apply get_put_eq. Qed.

End Blocks.

(** The removal of the test suite: a written block, then removed. *)
Lemma remove_block_not_listed_witness :
  truthy "server" = true ∧ str_in "/" "server" = false ∧
  KV.wf (store (snd (write_block "test-suite-rpaas" "myrpaas" "server"
                       (Some "something nice in server") (Client KV.empty []))))
    = true ∧
  fst (list_blocks "test-suite-rpaas" "myrpaas" None
         (snd (write_block "test-suite-rpaas" "myrpaas" "server"
                 (Some "something nice in server") (Client KV.empty []))))
    = Ok [BlockItem "server" "something nice in server"] ∧
  fst (list_blocks "test-suite-rpaas" "myrpaas" None
         (snd (remove_block "test-suite-rpaas" "myrpaas" "server"
                 (snd (write_block "test-suite-rpaas" "myrpaas" "server"
                         (Some "something nice in server") (Client KV.empty []))))))
    = Ok [].
Proof.
  split; [reflexivity|]. split; [reflexivity|]. split; [reflexivity|].
  split; [reflexivity|].
  rewrite (proj1 (proj2 (proj2
    (remove_block_not_listed "test-suite-rpaas" "myrpaas" "server" None
       (snd (write_block "test-suite-rpaas" "myrpaas" "server"
               (Some "something nice in server") (Client KV.empty [])))
       eq_refl eq_refl eq_refl)))).
  reflexivity.
Defined.

(** C10 fails on a block name with a ["/"]: the listing takes the name
    from the last segment but one of the key, unframes with that name,
    finds no sentinel and lists the frame itself as a content. *)
Lemma remove_block_not_listed_counterexample :
  KV.get "rpaas/myrpaas/blocks/a/b/ROOT"
    (store (snd (remove_block "rpaas" "myrpaas" "a/b" (Client KV.empty []))))
    = Some (begin_block "a/b" +:+ end_block "a/b") ∧
  fst (list_blocks "rpaas" "myrpaas" None
         (snd (remove_block "rpaas" "myrpaas" "a/b" (Client KV.empty []))))
    = Ok [BlockItem "b" (begin_block "a/b" +:+ end_block "a/b")].
Proof. split; reflexivity. Qed.

(** So it does on the empty name, whose key is the [blocks] prefix. *)
Lemma remove_block_empty_name :
  fst (list_blocks "rpaas" "myrpaas" None
         (snd (remove_block "rpaas" "myrpaas" "" (Client KV.empty []))))
    = Ok [BlockItem "myrpaas" (begin_block "" +:+ end_block "")].
Proof. reflexivity. Qed.

(** ** Locations *)

#[local] Arguments _location_key : simpl never.

Section Locations.

Variable service_name : string.
Variable host_from_destination : option string → outcome (option string * option N).
Variable set_order : gset string → list string.
Variable generate_host_config :
  string → option string → option string → bool → bool → string.

Implicit Types (p q s : string).

Lemma replace_char_by_string_cons a new c s :
  replace (String a "") new (String c s)
  = (if bool_decide (a = c) then new else String c "")
      +:+ replace (String a "") new s.
Proof.
  unfold replace. cbn [replace_from].
  rewrite prefix_cons, prefix_nil, andb_true_r.
  by case_bool_decide.
Qed.

(** Putting ["/"] back for ["___"] undoes the encoding of a path
    without underscore. *)
Lemma location_segment_roundtrip s :
  str_in "_" s = false → replace "___" "/" (replace "/" "___" s) = s.
Proof.
  induction s as [|c s IH]; [done|].
  rewrite str_in_char, replace_char_by_string_cons.
  intros [Hc Hs]%orb_false_iff. apply bool_decide_eq_false_1 in Hc.
  case_bool_decide as Hsl.
  - subst c. rewrite replace_prefix by done. by rewrite IH.
  - rewrite app_cons, app_nil_l. unfold replace in *. cbn [replace_from].
    rewrite prefix_cons, bool_decide_eq_false_2 by done. cbn [andb].
    by rewrite IH.
Qed.

Lemma location_segment_inj p q :
  str_in "_" p = false → str_in "_" q = false →
  replace "/" "___" p = replace "/" "___" q → p = q.
Proof.
  intros Hp Hq H.
  rewrite <- (location_segment_roundtrip p Hp), <- (location_segment_roundtrip q Hq).
  by rewrite H.
Qed.

Lemma _location_key_segment i p :
  _location_key service_name i p
  = (service_name +:+ "/" +:+ i) +:+ "/locations/"
      +:+ (if negb (String.eqb p "/") then replace "/" "___" p else "ROOT").
Proof. reflexivity. Qed.

(** Two paths without underscore have the same location key exactly when
    they are the same path, or one is ["/"] and the other is ["ROOT"]:
    the segment [ROOT] that stands for ["/"] is also the segment of the
    path ["ROOT"]. *)
Theorem _location_key_collision i p q :
  str_in "_" p = false → str_in "_" q = false →
  _location_key service_name i p = _location_key service_name i q ↔
  p = q ∨ (p = "/" ∧ q = "ROOT") ∨ (p = "ROOT" ∧ q = "/").
Proof.
  intros Hp Hq. rewrite !_location_key_segment. split.
  - intros H. apply String.app_inj in H. apply (String.app_inj "/locations/") in H.
    destruct (String.eqb_spec p "/") as [->|Hp1],
             (String.eqb_spec q "/") as [->|Hq1]; cbn [negb] in H; auto.
    + right. left. split; [done|].
      symmetry. by apply (location_segment_inj "ROOT" q).
    + right. right. split; [|done].
      by apply (location_segment_inj p "ROOT").
    + left. by apply location_segment_inj.
  - intros [->|[[-> ->]|[-> ->]]]; done.
Qed.

(** With a non-empty content, [write_location] stores the trimmed
    content under the location key by a single write: the destination is
    not parsed and no upstream is touched.  A [remove_location] of the
    same path then leaves the key absent, and the store as it was
    without that key. *)
Theorem write_location_content i path destination c router_mode bind_mode https_only st :
  truthy c = true →
  write_location service_name host_from_destination set_order generate_host_config
    i path destination (Some c) router_mode bind_mode https_only st
  = (Ok tt,
     Client (KV.put (_location_key service_name i path) (strip c) (store st))
            (calls st ++ [OpPut (_location_key service_name i path) (strip c)])) ∧
  KV.get (_location_key service_name i path)
    (store (snd (remove_location service_name i path
                   (snd (write_location service_name host_from_destination set_order
                           generate_host_config i path destination (Some c)
                           router_mode bind_mode https_only st))))) = None ∧
  store (snd (remove_location service_name i path
                (snd (write_location service_name host_from_destination set_order
                        generate_host_config i path destination (Some c)
                        router_mode bind_mode https_only st))))
  = KV.delete (_location_key service_name i path) (store st).
Proof.
  intros Hc.
  assert (write_location service_name host_from_destination set_order
            generate_host_config i path destination (Some c)
            router_mode bind_mode https_only st
          = (Ok tt,
             Client (KV.put (_location_key service_name i path) (strip c) (store st))
                    (calls st ++ [OpPut (_location_key service_name i path) (strip c)])))
    as Hw.
  { unfold write_location. rewrite Hc. by run. }
  rewrite Hw. split; [done|]. unfold remove_location. run.
  split; [apply get_delete_eq|apply delete_put].
Qed.

(** Without content and in router mode, [write_location] stores the
    generated text by a single write: no upstream key is read or
    written. *)
Theorem write_location_router_mode i path destination content bind_mode https_only
    st host port :
  match content with Some c => truthy c | None => false end = false →
  host_from_destination destination = Ok (host, port) →
  write_location service_name host_from_destination set_order generate_host_config
    i path destination content true bind_mode https_only st
  = (Ok tt,
     Client (KV.put (_location_key service_name i path)
               (generate_host_config path destination
                  (if bind_mode then Some "rpaas_default_upstream" else host)
                  true https_only)
               (store st))
            (calls st ++
               [OpPut (_location_key service_name i path)
                  (generate_host_config path destination
                     (if bind_mode then Some "rpaas_default_upstream" else host)
                     true https_only)])).
Proof.
  intros Hc Hh. unfold write_location. rewrite Hc. run. rewrite Hh. by run.
Qed.

(** Without content, an error of the destination parser is the error of
    [write_location], and nothing is read or written. *)
Theorem write_location_parser_error i path destination content router_mode bind_mode
    https_only st e :
  match content with Some c => truthy c | None => false end = false →
  host_from_destination destination = Raise e →
  write_location service_name host_from_destination set_order generate_host_config
    i path destination content router_mode bind_mode https_only st
  = (Raise e, st).
Proof.
  intros Hc Hh. unfold write_location. rewrite Hc. run. by rewrite Hh.
Qed.

End Locations.

(** The location and the content of the test suite. *)
Lemma write_location_content_witness :
  truthy (" something nice              " +:+ LF) = true ∧
  write_location "test-suite-rpaas" bare_host elements sample_host_config
    "myrpaas" "/admin/app_sites/" (Some "http://myapp.tsuru.io")
    (Some (" something nice              " +:+ LF)) false false false
    (Client KV.empty [])
  = (Ok tt,
     Client [("test-suite-rpaas/myrpaas/locations/___admin___app_sites___",
              "something nice")]
            [OpPut "test-suite-rpaas/myrpaas/locations/___admin___app_sites___"
               "something nice"]).
Proof.
  split; [reflexivity|].
  exact (proj1 (write_location_content "test-suite-rpaas" bare_host elements
                  sample_host_config "myrpaas" "/admin/app_sites/"
                  (Some "http://myapp.tsuru.io")
                  (" something nice              " +:+ LF) false false false
                  (Client KV.empty []) eq_refl)).
Defined.

Lemma _location_key_collision_witness :
  str_in "_" "/" = false ∧ str_in "_" "ROOT" = false ∧
  _location_key "rpaas" "myrpaas" "/" = _location_key "rpaas" "myrpaas" "ROOT".
Proof.
  split; [reflexivity|]. split; [reflexivity|].
  apply (_location_key_collision "rpaas" "myrpaas" "/" "ROOT" eq_refl eq_refl).
  right. left. split; reflexivity.
Defined.

Lemma write_location_router_mode_witness :
  bare_host (Some "router-myrpaas") = Ok (Some "router-myrpaas", None) ∧
  write_location "test-suite-rpaas" bare_host elements sample_host_config
    "myrpaas" "/" (Some "router-myrpaas") None true false false (Client KV.empty [])
  = (Ok tt,
     Client [("test-suite-rpaas/myrpaas/locations/ROOT",
              sample_host_config "/" (Some "router-myrpaas") (Some "router-myrpaas")
                true false)]
            [OpPut "test-suite-rpaas/myrpaas/locations/ROOT"
               (sample_host_config "/" (Some "router-myrpaas") (Some "router-myrpaas")
                  true false)]).
Proof.
  split; [reflexivity|].
  exact (write_location_router_mode "test-suite-rpaas" bare_host elements
           sample_host_config "myrpaas" "/" (Some "router-myrpaas") None false false
           (Client KV.empty []) (Some "router-myrpaas") None eq_refl eq_refl).
Defined.

Lemma write_location_parser_error_witness :
  bare_host None = Raise CollaboratorError ∧
  write_location "test-suite-rpaas" bare_host elements sample_host_config
    "myrpaas" "/" None None false false false (Client KV.empty [])
  = (Raise CollaboratorError, Client KV.empty []).
Proof.
  split; [reflexivity|].
  exact (write_location_parser_error "test-suite-rpaas" bare_host elements
           sample_host_config "myrpaas" "/" None None false false false
           (Client KV.empty []) CollaboratorError eq_refl eq_refl).
Defined.

(** ** Upstreams of plain addresses *)

Section PlainAddresses.

Implicit Types (s t a b : string) (c d : ascii) (P Q : ascii → bool).

Lemma str_forallb_app P s t :
  str_forallb P (s +:+ t) = str_forallb P s && str_forallb P t.
Proof.
  induction s as [|c s IH]; [done|].
  rewrite app_cons. cbn [str_forallb]. by rewrite IH, andb_assoc.
Qed.

Lemma str_forallb_impl P Q s :
  (∀ c, P c = true → Q c = true) →
  str_forallb P s = true → str_forallb Q s = true.
Proof.
  intros HPQ. induction s as [|c s IH]; [done|]. cbn [str_forallb].
  intros [Hc Hs]%andb_true_iff. by rewrite (HPQ c Hc), IH.
Qed.

(** An occurrence of [old] does not start where its first character
    does not occur. *)
Lemma str_find_skip old c old' a b :
  old = String c old' →
  str_forallb (λ d, negb (Ascii.eqb d c)) a = true →
  str_find old (a +:+ b) = (λ n, String.length a + n) <$> str_find old b.
Proof.
  intros -> Ha. induction a as [|d a IH].
  - rewrite app_nil_l. by destruct (str_find _ b).
  - cbn [str_forallb] in Ha. apply andb_true_iff in Ha as [Hd Ha].
    apply negb_true_iff, Ascii.eqb_neq in Hd.
    rewrite app_cons. cbn [str_find].
    rewrite prefix_cons, bool_decide_eq_false_2 by congruence. cbn [andb].
    rewrite IH by done. by destruct (str_find _ b).
Qed.

Lemma rstrip_no_space s :
  str_forallb (λ c, negb (Ascii.is_space c)) s = true → rstrip s = s.
Proof.
  induction s as [|c s IH]; [done|]. cbn [str_forallb rstrip].
  intros [Hc Hs]%andb_true_iff. apply negb_true_iff in Hc.
  rewrite IH by done. destruct s; by rewrite ?Hc.
Qed.

Lemma strip_no_space s :
  str_forallb (λ c, negb (Ascii.is_space c)) s = true → strip s = s.
Proof.
  intros Hs. unfold strip. rewrite lstrip_id; [by apply rstrip_no_space|].
  destruct s as [|c s]; [done|]. cbn in *.
  apply andb_true_iff in Hs as [Hc _]. by apply negb_true_iff in Hc.
Qed.

Lemma join_forallb P l :
  P ","%char = true →
  Forall (λ x, str_forallb P x = true) l →
  str_forallb P (join "," l) = true.
Proof.
  intros Hsep Hl. induction Hl as [|x l Hx Hl IH]; [done|].
  destruct l as [|y l]; [done|].
  rewrite join_cons, !str_forallb_app, Hx, IH. cbn. by rewrite Hsep.
Qed.

Lemma join_truthy x l : truthy x = true → truthy (join "," (x :: l)) = true.
Proof. destruct x; [done|]. by destruct l. Qed.

Lemma plain_address_no_comma s : plain_address s = true → str_in "," s = false.
Proof.
  unfold plain_address. intros [_ Hs]%andb_true_iff.
  induction s as [|c s IH]; [done|]. cbn [str_forallb] in Hs.
  apply andb_true_iff in Hs as [Hc Hs]. rewrite str_in_char, IH by done.
  unfold address_char in Hc. apply andb_true_iff in Hc as [[_ Hc]%andb_true_iff _].
  apply negb_true_iff, Ascii.eqb_neq in Hc.
  by rewrite bool_decide_eq_false_2.
Qed.

Lemma plain_address_chars s (P : ascii → bool) :
  (∀ c, address_char c = true → P c = true) →
  plain_address s = true → str_forallb P s = true.
Proof.
  unfold plain_address. intros HP [_ Hs]%andb_true_iff.
  by apply str_forallb_impl with address_char.
Qed.

Lemma address_char_no_space c :
  address_char c = true → negb (Ascii.is_space c) = true.
Proof. unfold address_char. by intros [[? _]%andb_true_iff _]%andb_true_iff. Qed.

Lemma address_char_no_hash c :
  address_char c = true → negb (Ascii.eqb c "#") = true.
Proof. unfold address_char. by intros [_ ?]%andb_true_iff. Qed.

(** The frame of a joined list of plain addresses unframes to it. *)
Lemma unframe_plain_join l :
  l ≠ [] → Forall (λ x, plain_address x = true) l →
  _set_header_footer (Some (join "," l)) "upstream" false
    = Ok (begin_block "upstream" +:+ join "," l +:+ LF +:+ end_block "upstream") ∧
  _set_header_footer
    (Some (begin_block "upstream" +:+ join "," l +:+ LF +:+ end_block "upstream"))
    "upstream" true = Ok (join "," l) ∧
  truthy (join "," l) = true.
Proof.
  intros Hl Hall.
  assert (truthy (join "," l) = true) as Ht.
  { destruct Hall as [|x l Hx _]; [done|]. apply join_truthy.
    unfold plain_address in Hx. by apply andb_true_iff in Hx as [? _]. }
  assert (str_forallb (λ c, negb (Ascii.is_space c)) (join "," l) = true) as Hsp.
  { apply join_forallb; [done|]. eapply Forall_impl; [exact Hall|].
    intros x Hx. apply (plain_address_chars x _ address_char_no_space Hx). }
  assert (str_forallb (λ c, negb (Ascii.eqb c "#")) (join "," l +:+ LF) = true) as Hh.
  { rewrite str_forallb_app, join_forallb; [done..|].
    eapply Forall_impl; [exact Hall|].
    intros x Hx. apply (plain_address_chars x _ address_char_no_hash Hx). }
  pose proof (strip_no_space _ Hsp) as Hstrip.
  split; [|split; [|done]].
  - unfold _set_header_footer. by rewrite Ht, Hstrip.
  - assert (_set_header_footer
              (Some (begin_block "upstream" +:+ framed_tail (join "," l) "upstream"))
              "upstream" true = Ok (strip (join "," l))) as Hu.
    { apply unframe_framed_tail; unfold framed_tail;
        rewrite Hstrip, <- app_assoc'.
      - erewrite str_find_skip; [|reflexivity|exact Hh].
        by rewrite begin_not_in_end.
      - erewrite str_find_skip; [|reflexivity|exact Hh].
        change (str_find (end_block "upstream") (end_block "upstream")) with (Some 0).
        cbn. by rewrite Nat.add_0_r. }
    unfold framed_tail in Hu. by rewrite Hstrip in Hu.
Qed.

End PlainAddresses.

Section UpstreamSets.

Variable service_name : string.
Variable host_from_destination : option string → outcome (option string * option N).
Variable set_order : gset string → list string.
Hypothesis set_order_perm : ∀ X, set_order X ≡ₚ elements X.

Implicit Types (X servers new gone : gset string) (i u : string).

Lemma set_order_plain X :
  (∀ x, x ∈ X → plain_address x = true) →
  Forall (λ x, plain_address x = true) (set_order X).
Proof.
  intros HX. apply Forall_forall. intros x Hx. apply HX.
  rewrite set_order_perm in Hx. by apply elem_of_elements in Hx.
Qed.

Lemma set_order_nonempty X : X ≠ ∅ → set_order X ≠ [].
Proof.
  intros HX Hnil. apply HX. apply leibniz_equiv, elements_empty_inv.
  pose proof (set_order_perm X) as Hp. rewrite Hnil in Hp.
  by apply Permutation_nil_l in Hp.
Qed.

(** The text that [_save_upstream] stores for a set of plain addresses. *)
Lemma _save_upstream_plain i u X st :
  X ≠ ∅ → (∀ x, x ∈ X → plain_address x = true) →
  _save_upstream service_name set_order i u X st
  = (Ok tt,
     Client (KV.put (_upstream_key service_name i u)
               (begin_block "upstream" +:+ join "," (set_order X) +:+ LF
                  +:+ end_block "upstream") (store st))
            (calls st ++
               [OpPut (_upstream_key service_name i u)
                  (begin_block "upstream" +:+ join "," (set_order X) +:+ LF
                     +:+ end_block "upstream")])).
Proof.
  intros HX Hplain.
  destruct (unframe_plain_join (set_order X) (set_order_nonempty X HX)
              (set_order_plain X Hplain)) as (Hf & _ & _).
  unfold _save_upstream. run. by rewrite Hf.
Qed.

(** [list_upstream] reads back the set that was saved. *)
Lemma list_upstream_saved i u X st :
  X ≠ ∅ → (∀ x, x ∈ X → plain_address x = true) →
  KV.get (_upstream_key service_name i u) (store st)
    = Some (begin_block "upstream" +:+ join "," (set_order X) +:+ LF
              +:+ end_block "upstream") →
  fst (list_upstream service_name i u st) = Ok X.
Proof.
  intros HX Hplain Hget.
  destruct (unframe_plain_join (set_order X) (set_order_nonempty X HX)
              (set_order_plain X Hplain)) as (_ & Hu & Ht).
  unfold list_upstream. run. rewrite Hget, Hu.
  destruct (String.eqb_spec (join "," (set_order X)) "") as [Hj|_].
  { by rewrite Hj in Ht. }
  cbn [fst]. rewrite split_join.
  - by rewrite (list_to_set_set_order set_order set_order_perm).
  - by apply set_order_nonempty.
  - eapply Forall_impl; [by apply set_order_plain|].
    intros x. apply plain_address_no_comma.
Qed.


Lemma add_server_upstream_run i u server st servers st1 new :
  server_truthy server = true →
  list_upstream service_name i u st = (Ok servers, st1) →
  removed_addresses host_from_destination server = Ok new →
  add_server_upstream service_name host_from_destination set_order i u server st
  = _save_upstream service_name set_order i u (servers ∪ new) st1.
Proof.
  intros Ht Hl Hn. unfold add_server_upstream, removed_addresses in *. rewrite Ht.
  cbn [negb]. unfold mbind, M_bind at 1. rewrite Hl.
  destruct server as [|s|l].
  - done.
  - destruct (server_address host_from_destination (Some s)) as [a|e]; [|done].
    injection Hn as <-. by run.
  - destruct (server_addresses host_from_destination l) as [l'|e]; [|done].
    injection Hn as <-. by run.
Qed.

Lemma server_addresses_length l l' :
  server_addresses host_from_destination l = Ok l' → length l' = length l.
Proof.
  revert l'. induction l as [|s l IH]; intros l'; cbn [server_addresses].
  - by intros [= <-].
  - destruct (server_address host_from_destination (Some s)); [|done].
    destruct (server_addresses host_from_destination l) as [l2|]; [|done].
    intros [= <-]. cbn. by rewrite (IH l2).
Qed.

Lemma added_addresses_nonempty server new :
  server_truthy server = true →
  removed_addresses host_from_destination server = Ok new → new ≠ ∅.
Proof.
  unfold removed_addresses. destruct server as [|s|l]; [done|..].
  - destruct (server_address host_from_destination (Some s)) as [a|]; [|done].
    intros _ [= <-]. apply non_empty_singleton_L.
  - destruct (server_addresses host_from_destination l) as [l'|] eqn:Hl; [|done].
    intros Ht [= <-]. apply server_addresses_length in Hl.
    destruct l' as [|a l']; [by destruct l|].
    rewrite list_to_set_cons. intros Hempty.
    apply (not_elem_of_empty (C:=gset string) a). rewrite <- Hempty.
    apply elem_of_union_l, elem_of_singleton. reflexivity.
Qed.

(** What [add_server_upstream] leaves under the key of the upstream. *)
Lemma add_server_upstream_stored i u server st servers new :
  server_truthy server = true →
  fst (list_upstream service_name i u st) = Ok servers →
  removed_addresses host_from_destination server = Ok new →
  (∀ x, x ∈ servers ∪ new → plain_address x = true) →
  servers ∪ new ≠ ∅ ∧
  fst (add_server_upstream service_name host_from_destination set_order
         i u server st) = Ok tt ∧
  KV.get (_upstream_key service_name i u)
    (store (snd (add_server_upstream service_name host_from_destination set_order
                   i u server st)))
  = Some (begin_block "upstream" +:+ join "," (set_order (servers ∪ new)) +:+ LF
            +:+ end_block "upstream").
Proof.
  intros Ht Hl Hn Hplain.
  destruct (list_upstream_run service_name i u st) as [servers' Hrun].
  rewrite Hrun in Hl. injection Hl as ->.
  assert (servers ∪ new ≠ ∅) as HX.
  { intros [_ Hnew]%empty_union_L. by apply (added_addresses_nonempty server new). }
  rewrite (add_server_upstream_run _ _ _ _ _ _ _ Ht Hrun Hn).
  rewrite (_save_upstream_plain i u _ _ HX Hplain).
  split; [done|]. split; [done|]. cbn [snd store]. apply get_put_eq.
Qed.

(** When the servers of an upstream and the addresses added are plain
    (non-empty, without whitespace, comma or ["#"]),
    [add_server_upstream] with a non-empty argument returns normally and
    [list_upstream] then returns the servers it had together with the
    addresses added. *)
Theorem add_server_upstream_lists i u server st servers new :
  server_truthy server = true →
  fst (list_upstream service_name i u st) = Ok servers →
  removed_addresses host_from_destination server = Ok new →
  (∀ x, x ∈ servers ∪ new → plain_address x = true) →
  fst (add_server_upstream service_name host_from_destination set_order
         i u server st) = Ok tt ∧
  fst (list_upstream service_name i u
         (snd (add_server_upstream service_name host_from_destination set_order
                 i u server st))) = Ok (servers ∪ new).
Proof.
  intros Ht Hl Hn Hplain.
  destruct (list_upstream_run service_name i u st) as [servers' Hrun].
  rewrite Hrun in Hl. injection Hl as ->.
  rewrite (add_server_upstream_run _ _ _ _ _ _ _ Ht Hrun Hn).
  assert (servers ∪ new ≠ ∅) as HX.
  { intros [_ Hnew]%empty_union_L. by apply (added_addresses_nonempty server new). }
  rewrite (_save_upstream_plain i u _ _ HX Hplain). split; [done|].
  apply (list_upstream_saved i u _ _ HX Hplain). cbn [snd store]. apply get_put_eq.
Qed.


End UpstreamSets.

(** Under the same conditions [add_server_upstream] is idempotent on the
    set of servers: after a second call with the same argument
    [list_upstream] returns the same set as after the first one.  The
    two calls may iterate their sets in different orders, so the stored
    texts need not be the same. *)
Theorem add_server_upstream_idempotent service_name host_from_destination
    (order1 order2 : gset string → list string) i u server st
    (servers new : gset string) :
  (∀ X, order1 X ≡ₚ elements X) → (∀ X, order2 X ≡ₚ elements X) →
  server_truthy server = true →
  fst (list_upstream service_name i u st) = Ok servers →
  removed_addresses host_from_destination server = Ok new →
  (∀ x, x ∈ servers ∪ new → plain_address x = true) →
  fst (add_server_upstream service_name host_from_destination order2 i u server
         (snd (add_server_upstream service_name host_from_destination order1
                 i u server st))) = Ok tt ∧
  fst (list_upstream service_name i u
         (snd (add_server_upstream service_name host_from_destination order2
                 i u server
                 (snd (add_server_upstream service_name host_from_destination
                         order1 i u server st)))))
  = fst (list_upstream service_name i u
           (snd (add_server_upstream service_name host_from_destination order1
                   i u server st))) ∧
  fst (list_upstream service_name i u
         (snd (add_server_upstream service_name host_from_destination order1
                 i u server st))) = Ok (servers ∪ new).
Proof.
  intros Hp1 Hp2 Ht Hl Hn Hplain.
  destruct (add_server_upstream_stored service_name host_from_destination
              order1 Hp1 i u server st servers new Ht Hl Hn Hplain)
    as (HX & _ & Hg1).
  pose proof (list_upstream_saved service_name order1 Hp1 i u _ _ HX Hplain Hg1)
    as Hl1.
  assert (servers ∪ new ∪ new = servers ∪ new) as Hidem
    by (by rewrite <- (assoc_L (∪)), (idemp_L (∪) new)).
  assert (∀ x, x ∈ servers ∪ new ∪ new → plain_address x = true) as Hplain2
    by (by rewrite Hidem).
  destruct (add_server_upstream_stored service_name host_from_destination
              order2 Hp2 i u server _ (servers ∪ new) new Ht Hl1 Hn Hplain2)
    as (HX2 & Hr2 & Hg2).
  pose proof (list_upstream_saved service_name order2 Hp2 i u _ _ HX2 Hplain2 Hg2)
    as Hl2.
  rewrite Hidem in Hl2. by rewrite Hl2, Hl1.
Qed.

Section LocationUpstream.

Variable service_name : string.
Variable host_from_destination : option string → outcome (option string * option N).
Variable set_order : gset string → list string.
Variable generate_host_config :
  string → option string → option string → bool → bool → string.
Hypothesis set_order_perm : ∀ X, set_order X ≡ₚ elements X.

Lemma _location_key_not_upstream i path u :
  _location_key service_name i path ≠ _upstream_key service_name i u.
Proof.
  rewrite _location_key_segment. intros H.
  change (_upstream_key service_name i u)
    with ((service_name +:+ "/" +:+ i) +:+ "/upstream/" +:+ u) in H.
  apply String.app_inj in H. discriminate H.
Qed.

(** [list_upstream] depends on the store through the key of the upstream. *)
Lemma list_upstream_get i u st1 st2 :
  KV.get (_upstream_key service_name i u) (store st1)
    = KV.get (_upstream_key service_name i u) (store st2) →
  fst (list_upstream service_name i u st1) = fst (list_upstream service_name i u st2).
Proof.
  intros H. unfold list_upstream. run. rewrite H.
  destruct (KV.get _ (store st2)) as [v|]; [|done].
  unfold _set_header_footer. by destruct (String.eqb _ "").
Qed.

(** Without content and outside router mode, [write_location] of a
    destination with a host registers the host as a server of the
    upstream, which is named after the host, or [rpaas_default_upstream]
    in bind mode, and stores the text generated for that upstream under
    the location key. *)
Theorem write_location_registers_upstream i path destination content
    (bind_mode https_only : bool) st host port address (servers : gset string) :
  match content with Some c => truthy c | None => false end = false →
  host_from_destination destination = Ok (Some host, port) →
  truthy host = true →
  server_address host_from_destination (Some host) = Ok address →
  fst (list_upstream service_name i
         (if bind_mode then "rpaas_default_upstream" else host) st) = Ok servers →
  (∀ x, x ∈ servers ∪ {[address]} → plain_address x = true) →
  fst (write_location service_name host_from_destination set_order
         generate_host_config i path destination content false bind_mode
         https_only st) = Ok tt ∧
  KV.get (_location_key service_name i path)
    (store (snd (write_location service_name host_from_destination set_order
                   generate_host_config i path destination content false bind_mode
                   https_only st)))
    = Some (generate_host_config path destination
              (Some (if bind_mode then "rpaas_default_upstream" else host))
              false https_only) ∧
  fst (list_upstream service_name i
         (if bind_mode then "rpaas_default_upstream" else host)
         (snd (write_location service_name host_from_destination set_order
                 generate_host_config i path destination content false bind_mode
                 https_only st))) = Ok (servers ∪ {[address]}).
Proof.
  intros Hc Hh Ht Ha Hl Hplain.
  assert (removed_addresses host_from_destination (SrvStr host) = Ok {[address]})
    as Hnew by (unfold removed_addresses; by rewrite Ha).
  destruct (add_server_upstream_stored service_name host_from_destination set_order
              set_order_perm i (if bind_mode then "rpaas_default_upstream" else host)
              (SrvStr host) st servers {[address]} Ht Hl Hnew Hplain)
    as (HX & Hadd & Hget).
  pose proof (list_upstream_saved service_name set_order set_order_perm i
                (if bind_mode then "rpaas_default_upstream" else host) _ _
                HX Hplain Hget) as Hlist.
  unfold write_location. rewrite Hc. run. rewrite Hh. run.
  replace (format_value (if bind_mode then Some "rpaas_default_upstream" else Some host))
    with (if bind_mode then "rpaas_default_upstream" else host) by by destruct bind_mode.
  replace (if bind_mode then Some "rpaas_default_upstream" else Some host)
    with (Some (if bind_mode then "rpaas_default_upstream" else host))
    by by destruct bind_mode.
  destruct (add_server_upstream service_name host_from_destination set_order i
              (if bind_mode then "rpaas_default_upstream" else host)
              (SrvStr host) st) as [[[]|e] st2]; [|done].
  cbn [fst snd store] in *. split; [done|]. split; [apply get_put_eq|].
  rewrite <- Hlist. apply list_upstream_get. cbn [store].
  apply get_put_ne, _location_key_not_upstream.
Qed.

End LocationUpstream.

(** The upstream of the test suite with one server, to which a server
    is added, with the order of [elements]. *)
Lemma add_server_upstream_lists_witness :
  (∀ X : gset string, elements X ≡ₚ elements X) ∧
  server_truthy (SrvStr "server2") = true ∧
  removed_addresses bare_host (SrvStr "server2") = Ok {["server2"]} ∧
  fst (list_upstream "test-suite-rpaas" "myrpaas" "upstream1"
         (snd (add_server_upstream "test-suite-rpaas" bare_host elements
                 "myrpaas" "upstream1" (SrvStr "server2")
                 (Client [("test-suite-rpaas/myrpaas/upstream/upstream1",
                           begin_block "upstream" +:+ "server1" +:+ LF
                             +:+ end_block "upstream")] []))))
    = Ok ({["server1"]} ∪ {["server2"]}).
Proof.
  split; [intros X; reflexivity|]. split; [reflexivity|]. split; [reflexivity|].
  refine (proj2 (add_server_upstream_lists "test-suite-rpaas" bare_host elements
           (λ X, reflexivity (elements X)) "myrpaas" "upstream1" (SrvStr "server2")
           (Client [("test-suite-rpaas/myrpaas/upstream/upstream1",
                     begin_block "upstream" +:+ "server1" +:+ LF
                       +:+ end_block "upstream")] [])
           {["server1"]} {["server2"]} eq_refl _ eq_refl _)).
  - vm_compute. reflexivity.
  - intros x [->%elem_of_singleton| ->%elem_of_singleton]%elem_of_union; reflexivity.
Defined.

(** Two calls that iterate their sets in opposite orders. *)
Lemma add_server_upstream_idempotent_witness :
  (∀ X : gset string, elements X ≡ₚ elements X) ∧
  (∀ X : gset string, reverse (elements X) ≡ₚ elements X) ∧
  server_truthy (SrvList ["server1"; "server2"]) = true ∧
  fst (list_upstream "test-suite-rpaas" "myrpaas" "upstream1"
         (snd (add_server_upstream "test-suite-rpaas" bare_host
                 (λ X, reverse (elements X)) "myrpaas" "upstream1"
                 (SrvList ["server1"; "server2"])
                 (snd (add_server_upstream "test-suite-rpaas" bare_host elements
                         "myrpaas" "upstream1" (SrvList ["server1"; "server2"])
                         (Client KV.empty []))))))
  = fst (list_upstream "test-suite-rpaas" "myrpaas" "upstream1"
           (snd (add_server_upstream "test-suite-rpaas" bare_host elements
                   "myrpaas" "upstream1" (SrvList ["server1"; "server2"])
                   (Client KV.empty [])))).
Proof.
  assert (∀ X : gset string, reverse (elements X) ≡ₚ elements X) as Hrev
    by (intros X; apply reverse_Permutation).
  split; [intros X; reflexivity|]. split; [exact Hrev|]. split; [reflexivity|].
  refine (proj1 (proj2
    (add_server_upstream_idempotent "test-suite-rpaas" bare_host elements
       (λ X, reverse (elements X)) "myrpaas" "upstream1"
       (SrvList ["server1"; "server2"]) (Client KV.empty []) ∅
       (list_to_set ["server1"; "server2"])
       (λ X, reflexivity (elements X)) Hrev eq_refl eq_refl eq_refl _))).
  intros x [[]%not_elem_of_empty|Hx]%elem_of_union.
  apply elem_of_list_to_set in Hx.
  repeat (apply elem_of_cons in Hx as [->|Hx]; [reflexivity|]).
  by apply elem_of_nil in Hx.
Defined.


Lemma write_location_registers_upstream_witness :
  bare_host (Some "myapp.tsuru.io") = Ok (Some "myapp.tsuru.io", None) ∧
  server_address bare_host (Some "myapp.tsuru.io") = Ok "myapp.tsuru.io" ∧
  fst (list_upstream "test-suite-rpaas" "myrpaas" "rpaas_default_upstream"
         (snd (write_location "test-suite-rpaas" bare_host elements
                 sample_host_config "myrpaas" "/" (Some "myapp.tsuru.io") None
                 false true false (Client KV.empty []))))
    = Ok (∅ ∪ {["myapp.tsuru.io"]}).
Proof.
  split; [reflexivity|]. split; [reflexivity|].
  refine (proj2 (proj2 (write_location_registers_upstream "test-suite-rpaas"
           bare_host elements sample_host_config (λ X, reflexivity (elements X))
           "myrpaas" "/" (Some "myapp.tsuru.io") None true false (Client KV.empty [])
           "myapp.tsuru.io" None "myapp.tsuru.io" ∅
           eq_refl eq_refl eq_refl eq_refl eq_refl _))).
  intros x [[]%not_elem_of_empty| ->%elem_of_singleton]%elem_of_union; reflexivity.
Defined.

(** ** Lua modules and written blocks *)

#[local] Arguments _lua_key : simpl never.
#[local] Arguments _lua_module_escope : simpl never.

Section LuaAndBlocks.

Variable service_name : string.

Lemma _lua_key_segments i name type :
  truthy name = true → truthy type = true →
  _lua_key service_name i name type
  = (((service_name +:+ "/" +:+ i) +:+ "/lua_module") +:+ String "/" type)
      +:+ String "/" name.
Proof.
  intros Hn Ht. unfold _lua_key, _key. rewrite Hn, Ht. cbn [andb].
  change (truthy ("lua_module/" +:+ type +:+ "/" +:+ name)) with true. cbn match.
  rewrite !app_assoc'. reflexivity.
Qed.

Lemma _lua_key_below_prefix i name type :
  truthy name = true → truthy type = true →
  String.prefix (_lua_key service_name i "" "") (_lua_key service_name i name type)
  = true.
Proof.
  intros Hn Ht. rewrite (_lua_key_segments i name type Hn Ht).
  change (_lua_key service_name i "" "")
    with ((service_name +:+ "/" +:+ i) +:+ "/lua_module").
  generalize ((service_name +:+ "/" +:+ i) +:+ "/lua_module"). intros P.
  rewrite app_assoc'. apply prefix_app.
Qed.

Lemma _lua_key_type i name type :
  truthy name = true → truthy type = true →
  str_in "/" name = false → str_in "/" type = false →
  last_but_one (split "/" (_lua_key service_name i name type)) = Some type.
Proof.
  intros Hn Ht Hsn Hst. rewrite (_lua_key_segments i name type Hn Ht).
  rewrite !split_app_sep, (split_no_sep "/" name Hsn), (split_no_sep "/" type Hst).
  unfold last_but_one. rewrite !reverse_app. reflexivity.
Qed.

(** After [write_lua] of a module, on an instance without other lua
    keys, [list_lua_modules] lists one module, under the type the module
    was written with and not under its name, with the stored scope as
    content; after [remove_lua] the module is still listed, with the
    scope around an empty line. *)
Theorem write_lua_listed_by_type i name type content st :
  truthy name = true → truthy type = true →
  str_in "/" name = false → str_in "/" type = false →
  KV.get_recurse (_lua_key service_name i "" "") (store st) = [] →
  fst (list_lua_modules service_name i
         (snd (write_lua service_name i name type content st)))
    = Ok [LuaItem type (_lua_module_escope name content)] ∧
  fst (list_lua_modules service_name i
         (snd (remove_lua service_name i name type
                 (snd (write_lua service_name i name type content st)))))
    = Ok [LuaItem type
            ("-- Begin custom RpaaS " +:+ name +:+ " lua module --" +:+ LF +:+ LF
               +:+ "-- End custom RpaaS " +:+ name +:+ " lua module --")].
Proof.
  intros Hn Ht Hsn Hst Hfresh.
  pose proof (_lua_key_below_prefix i name type Hn Ht) as Hp.
  pose proof (_lua_key_type i name type Hn Ht Hsn Hst) as Hk.
  unfold remove_lua, write_lua, list_lua_modules. run.
  rewrite put_put, !(get_recurse_put_fresh _ _ _ _ Hp Hfresh).
  cbn [list_lua_modules_loop]. rewrite Hk. split; [reflexivity|].
  unfold _lua_module_escope. rewrite !app_assoc'. reflexivity.
Qed.

(** After [write_block] of a block with a plain name, whose content
    carries the sentinels nowhere, on an instance without other block
    keys, [list_blocks] lists the block with its trimmed content, and
    lists nothing when the trimmed content is empty. *)
Theorem write_block_listed i b content st :
  truthy b = true → str_in "/" b = false →
  sentinels_stand_alone (default "" content) b = true →
  KV.get_recurse (_block_key service_name i None) (store st) = [] →
  fst (list_blocks service_name i None
         (snd (write_block service_name i b content st)))
    = Ok (if truthy (strip (default "" content))
          then [BlockItem b (strip (default "" content))]
          else []).
Proof.
  intros Hb Hsl Hsent Hfresh.
  assert (∃ framed,
             _set_header_footer content b false = Ok framed ∧
             _set_header_footer (Some framed) b true = Ok (strip (default "" content)))
    as (framed & Hf & Hu).
  { unfold sentinels_stand_alone in Hsent. unfold _set_header_footer at 1.
    destruct content as [c|]; unfold default in *; cbn [from_option] in *;
      unfold id in *;
      [destruct (truthy c) eqn:Hc|]; eexists; (split; [reflexivity|]).
    - cbn [negb orb] in Hsent.
      apply andb_true_iff in Hsent as [H1 H2].
      apply bool_decide_eq_true_1 in H1, H2. by apply unframe_framed_tail.
    - destruct c; [|done]. apply unframe_empty_frame.
    - apply unframe_empty_frame. }
  assert (String.prefix (_block_key service_name i None)
            (_block_key service_name i (Some b)) = true) as Hp.
  { unfold _block_key, _key. rewrite Hb.
    change (truthy ("blocks/" +:+ b +:+ "/" +:+ "ROOT")) with true.
    change (truthy "blocks") with true. cbn match.
    change ("/" +:+ "blocks/" +:+ b +:+ "/" +:+ "ROOT")
      with (("/" +:+ "blocks") +:+ ("/" +:+ b +:+ "/" +:+ "ROOT")).
    generalize (service_name +:+ "/" +:+ i). intros P.
    rewrite <- (app_assoc' P ("/" +:+ "blocks")). apply prefix_app. }
  unfold write_block. run. rewrite Hf. rewrite list_blocks_run. cbn [snd store].
  rewrite (get_recurse_put_fresh _ _ _ _ Hp Hfresh).
  cbn [list_blocks_loop]. rewrite (_block_key_name service_name i b Hb Hsl), Hu.
  by destruct (truthy (strip (default "" content))).
Qed.

End LuaAndBlocks.

Lemma write_lua_listed_by_type_witness :
  KV.get_recurse (_lua_key "test-suite-rpaas" "myrpaas" "" "") (store (Client KV.empty []))
    = [] ∧
  fst (list_lua_modules "test-suite-rpaas" "myrpaas"
         (snd (write_lua "test-suite-rpaas" "myrpaas" "some_module" "server"
                 (Some "something nice in server") (Client KV.empty []))))
    = Ok [LuaItem "server"
            (_lua_module_escope "some_module" (Some "something nice in server"))].
Proof.
  split; [reflexivity|].
  exact (proj1 (write_lua_listed_by_type "test-suite-rpaas" "myrpaas" "some_module"
                  "server" (Some "something nice in server") (Client KV.empty [])
                  eq_refl eq_refl eq_refl eq_refl eq_refl)).
Defined.

Lemma write_block_listed_witness :
  sentinels_stand_alone (default "" (Some "something nice in server")) "server" = true ∧
  fst (list_blocks "test-suite-rpaas" "myrpaas" None
         (snd (write_block "test-suite-rpaas" "myrpaas" "server"
                 (Some "something nice in server") (Client KV.empty []))))
    = Ok [BlockItem "server" "something nice in server"].
Proof.
  split; [reflexivity|].
  exact (write_block_listed "test-suite-rpaas" "myrpaas" "server"
           (Some "something nice in server") (Client KV.empty [])
           eq_refl eq_refl eq_refl eq_refl).
Defined.

(** ** Prefixes and paths *)

Section Paths.

Implicit Types (p q k s t a b x : string) (c d : ascii).

Lemma prefix_trans p q k :
  String.prefix p q = true → String.prefix q k = true → String.prefix p k = true.
Proof.
  revert q k. induction p as [|c p IH]; intros q k; [intros _ _; apply prefix_nil|].
  destruct q as [|d q]; [done|]. destruct k as [|e k]; [done|].
  rewrite !prefix_cons. intros [H1 H2]%andb_true_iff [H3 H4]%andb_true_iff.
  apply bool_decide_eq_true_1 in H1, H3. subst.
  by rewrite bool_decide_eq_true_2, (IH q k).
Qed.

Lemma prefix_app_cancel a s t :
  String.prefix (a +:+ s) (a +:+ t) = String.prefix s t.
Proof.
  induction a as [|c a IH]; [done|].
  by rewrite !app_cons, prefix_cons, bool_decide_eq_true_2, IH.
Qed.

Lemma str_in_app_r c a b :
  str_in (String c "") b = true → str_in (String c "") (a +:+ b) = true.
Proof.
  intros Hb. induction a as [|d a IH]; [done|].
  by rewrite app_cons, str_in_char, IH, orb_true_r.
Qed.

Lemma str_in_app_mid c a b : str_in (String c "") (a +:+ String c b) = true.
Proof.
  apply str_in_app_r. by rewrite str_in_char, bool_decide_eq_true_2.
Qed.

(** A string that begins with a string holding [c] holds [c]. *)
Lemma str_in_prefix c p s :
  str_in (String c "") p = true → String.prefix p s = true →
  str_in (String c "") s = true.
Proof.
  revert s. induction p as [|d p IH]; intros s; [done|].
  destruct s as [|e s]; [done|].
  rewrite prefix_cons, !str_in_char.
  intros Hp [He Hps]%andb_true_iff. apply bool_decide_eq_true_1 in He. subst e.
  apply orb_true_iff in Hp as [->|Hp]; [done|].
  by rewrite (IH s Hp Hps), orb_true_r.
Qed.

Lemma string_snoc s : truthy s = true → ∃ s' c, s = s' +:+ String c "".
Proof.
  induction s as [|d s IH]; [done|]. intros _.
  destruct s as [|e s].
  - by exists "", d.
  - destruct (IH eq_refl) as (s' & c & Hs). exists (String d s'), c.
    by rewrite app_cons, <- Hs.
Qed.

Lemma substring_last x c :
  String.substring (String.length (x +:+ String c "") - 1) 1 (x +:+ String c "")
  = String c "".
Proof.
  induction x as [|d x IH]; [done|].
  rewrite app_cons. cbn [String.length]. rewrite Nat.sub_1_r. cbn [Nat.pred].
  rewrite length_app in *. cbn [String.length] in *.
  replace (String.length x + 1) with (S (String.length x)) in * by lia.
  cbn [String.substring]. rewrite Nat.sub_1_r in IH. exact IH.
Qed.

(** [os.path.join] on a base given with its last character. *)
Lemma os_path_join_snoc x c b :
  String.prefix "/" b = false →
  os_path_join (x +:+ String c "") b
  = if bool_decide (c = "/"%char) then (x +:+ String c "") +:+ b
    else (x +:+ String c "") +:+ "/" +:+ b.
Proof.
  intros Hb. unfold os_path_join. rewrite Hb, substring_last.
  destruct (x +:+ String c "") as [|d y] eqn:Hx.
  { destruct x; discriminate Hx. }
  case_bool_decide as Hc.
  - subst c. reflexivity.
  - destruct (String.eqb_spec (String c "") "/") as [[= ->]|_]; done.
Qed.

End Paths.

(** ** Deleting certificates, instances and nodes *)

Section Deletions.

Variable service_name : string.

Implicit Types (i j h kt : string).

(** The path of a half of the default certificate. *)
Lemma _ssl_cert_path_default i kt :
  String.prefix "/" kt = false →
  _ssl_cert_path service_name i kt None
  = (service_name +:+ "/" +:+ i) +:+ "/ssl/" +:+ kt.
Proof.
  intros Hkt. unfold _ssl_cert_path.
  assert (_key service_name i (Some "ssl")
          = ((service_name +:+ "/" +:+ i) +:+ "/ss") +:+ String "l" "") as ->.
  { unfold _key. cbn [truthy]. by rewrite (app_assoc' _ "/ss"). }
  rewrite (os_path_join_snoc _ _ _ Hkt), bool_decide_eq_false_2 by done.
  rewrite !app_assoc'. reflexivity.
Qed.

(** The path of a half of the certificate of a host, and of the subtree
    of the host when [kt] is empty: below [ssl/], they start with the
    host and hold a ["/"]. *)
Lemma _ssl_cert_path_host i kt h :
  truthy h = true → String.prefix "/" kt = false →
  ∃ r, _ssl_cert_path service_name i kt (Some h)
       = (service_name +:+ "/" +:+ i) +:+ "/ssl/" +:+ r ∧
       str_in "/" r = true ∧
       String.prefix (_ssl_cert_path service_name i "" (Some h))
         (_ssl_cert_path service_name i kt (Some h)) = true.
Proof.
  intros Hh Hkt. unfold _ssl_cert_path. rewrite Hh.
  destruct (string_snoc h Hh) as (h' & c & ->).
  assert (_key service_name i (Some ("ssl/" +:+ h' +:+ String c ""))
          = (((service_name +:+ "/" +:+ i) +:+ "/ssl/") +:+ h') +:+ String c "") as ->.
  { unfold _key. change (truthy ("ssl/" +:+ h' +:+ String c "")) with true.
    cbn match. rewrite !app_assoc'. reflexivity. }
  rewrite !os_path_join_snoc by done.
  generalize ((service_name +:+ "/" +:+ i)). intros P.
  case_bool_decide as Hc.
  - subst c. exists (h' +:+ "/" +:+ kt). split; [by rewrite !app_assoc'|].
    split; [apply str_in_app_mid|]. rewrite app_nil_r. apply prefix_app.
  - exists (h' +:+ String c "" +:+ "/" +:+ kt). split; [by rewrite !app_assoc'|].
    split; [apply str_in_app_r, (str_in_app_mid "/" (String c ""))|].
    rewrite app_nil_r. rewrite <- (app_assoc' _ "/" kt). apply prefix_app.
Qed.

Lemma _ssl_cert_path_host_not_default i kt kt' h :
  truthy h = true → String.prefix "/" kt = false →
  String.prefix "/" kt' = false → str_in "/" kt' = false →
  _ssl_cert_path service_name i kt (Some h) ≠ _ssl_cert_path service_name i kt' None.
Proof.
  intros Hh Hkt Hkt' Hsl H.
  destruct (_ssl_cert_path_host i kt h Hh Hkt) as (r & Hr & Hin & _).
  rewrite Hr, (_ssl_cert_path_default i kt' Hkt') in H.
  apply String.app_inj in H. apply (String.app_inj "/ssl/") in H.
  subst r. by rewrite Hsl in Hin.
Qed.

Lemma delete_certificate_store i st :
  fst (delete_certificate service_name i st) = Ok tt ∧
  store (snd (delete_certificate service_name i st))
  = KV.delete (_ssl_cert_path service_name i "key" None)
      (KV.delete (_ssl_cert_path service_name i "cert" None) (store st)).
Proof. unfold delete_certificate. by run. Qed.

Lemma get_certificate_gets i host st1 st2 :
  KV.get (_ssl_cert_path service_name i "cert" host) (store st1)
    = KV.get (_ssl_cert_path service_name i "cert" host) (store st2) →
  KV.get (_ssl_cert_path service_name i "key" host) (store st1)
    = KV.get (_ssl_cert_path service_name i "key" host) (store st2) →
  fst (get_certificate service_name i host st1)
  = fst (get_certificate service_name i host st2).
Proof.
  intros Hc Hk. unfold get_certificate. run. rewrite Hc, Hk.
  by destruct (KV.get _ (store st2)), (KV.get _ (store st2)).
Qed.

(** After [delete_certificate] the default certificate of the instance
    is not found, whatever was stored. *)
Theorem delete_certificate_not_found i st :
  fst (get_certificate service_name i None (snd (delete_certificate service_name i st)))
  = Raise CertificateNotFoundError.
Proof.
  destruct (delete_certificate_store i st) as [_ Hs].
  unfold get_certificate. run. rewrite Hs.
  rewrite get_delete_ne, get_delete_eq; [done|].
  intros H. by apply (_ssl_cert_path_cert_key service_name i None).
Qed.

(** [delete_certificate] leaves the certificate of every host of the
    instance as it is. *)
Theorem delete_certificate_keeps_host i h st :
  truthy h = true →
  fst (get_certificate service_name i (Some h)
         (snd (delete_certificate service_name i st)))
  = fst (get_certificate service_name i (Some h) st).
Proof.
  intros Hh. destruct (delete_certificate_store i st) as [_ Hs].
  apply get_certificate_gets; rewrite Hs;
    rewrite !get_delete_ne; try done;
    intros H; symmetry in H; by apply _ssl_cert_path_host_not_default in H.
Qed.

End Deletions.

Section InstanceSubtree.

Variable service_name : string.

Implicit Types (i j h kt s : string).

Lemma snoc_inj_char (x y : string) (c d : ascii) :
  x +:+ String c "" = y +:+ String d "" → c = d.
Proof.
  revert y. induction x as [|e x IH]; intros [|f y] H.
  - by injection H.
  - rewrite app_nil_l, app_cons in H. injection H as _ H.
    apply (f_equal String.length) in H. rewrite length_app in H. cbn in H. lia.
  - rewrite app_nil_l, app_cons in H. injection H as _ H.
    apply (f_equal String.length) in H. rewrite length_app in H. cbn in H. lia.
  - rewrite !app_cons in H. injection H as _ H. by apply (IH y).
Qed.

Lemma _ssl_cert_path_default_inj i j kt kt' :
  (kt = "cert" ∨ kt = "key") → (kt' = "cert" ∨ kt' = "key") →
  _ssl_cert_path service_name i kt None = _ssl_cert_path service_name j kt' None →
  i = j.
Proof.
  intros Hkt Hkt'.
  rewrite !_ssl_cert_path_default by (destruct Hkt as [->| ->], Hkt' as [->| ->]; done).
  rewrite !app_assoc'. intros H.
  apply String.app_inj in H. apply (String.app_inj "/") in H.
  destruct Hkt as [->| ->], Hkt' as [->| ->].
  - by apply app_inj_r in H.
  - change (i +:+ "/ssl/" +:+ "cert") with (i +:+ "/ssl/cer" +:+ String "t" "") in H.
    change (j +:+ "/ssl/" +:+ "key") with (j +:+ "/ssl/ke" +:+ String "y" "") in H.
    rewrite <- !app_assoc' in H. by apply snoc_inj_char in H.
  - change (j +:+ "/ssl/" +:+ "cert") with (j +:+ "/ssl/cer" +:+ String "t" "") in H.
    change (i +:+ "/ssl/" +:+ "key") with (i +:+ "/ssl/ke" +:+ String "y" "") in H.
    rewrite <- !app_assoc' in H. by apply snoc_inj_char in H.
  - by apply app_inj_r in H.
Qed.

(** [delete_certificate] of another instance leaves the default
    certificate of an instance as it is. *)
Theorem delete_certificate_other_instance i j st :
  i ≠ j →
  fst (get_certificate service_name i None
         (snd (delete_certificate service_name j st)))
  = fst (get_certificate service_name i None st).
Proof.
  intros Hij. destruct (delete_certificate_store service_name j st) as [_ Hs].
  apply get_certificate_gets; rewrite Hs; rewrite !get_delete_ne; try done;
    intros H; apply _ssl_cert_path_default_inj in H; auto.
Qed.

(** Every key of an instance lies below the prefix that
    [destroy_instance] deletes. *)
Lemma _key_below_instance i s :
  truthy s = true →
  String.prefix (_key service_name (i +:+ "/") None) (_key service_name i (Some s))
  = true.
Proof.
  intros Hs. unfold _key. rewrite Hs. cbn match.
  rewrite !app_assoc'. rewrite prefix_app_cancel.
  change ("/" +:+ i +:+ "/") with (String "/" (i +:+ "/")).
  change ("/" +:+ i +:+ "/" +:+ s) with (String "/" (i +:+ "/" +:+ s)).
  rewrite prefix_cons, bool_decide_eq_true_2 by done. cbn [andb].
  rewrite <- (app_nil_r (i +:+ "/")) at 1. rewrite !app_assoc', prefix_app_cancel.
  rewrite app_nil_r. apply prefix_app.
Qed.

Lemma _ssl_cert_path_below_instance i kt host :
  String.prefix "/" kt = false →
  String.prefix (_key service_name (i +:+ "/") None)
    (_ssl_cert_path service_name i kt host) = true.
Proof.
  intros Hkt.
  assert (∃ r, _ssl_cert_path service_name i kt host
               = _key service_name i (Some ("ssl/" +:+ r))) as [r ->].
  { destruct host as [h|]; [destruct (truthy h) eqn:Hh|].
    - destruct (_ssl_cert_path_host service_name i kt h Hh Hkt) as (r & -> & _).
      exists r. unfold _key. change (truthy ("ssl/" +:+ r)) with true. cbn match.
      reflexivity.
    - exists kt. change (_ssl_cert_path service_name i kt (Some h))
        with (if truthy h
              then os_path_join (_key service_name i (Some ("ssl/" +:+ h))) kt
              else _ssl_cert_path service_name i kt None).
      rewrite Hh. by rewrite _ssl_cert_path_default.
    - exists kt. by rewrite _ssl_cert_path_default. }
  by apply _key_below_instance.
Qed.

Lemma destroy_instance_run i c :
  destroy_instance service_name i c
  = (Ok tt,
     Cluster (Client (KV.delete_recurse (_key service_name (i +:+ "/") None)
                        (store (kv_client c)))
                     (calls (kv_client c)))
             (cluster_calls c ++ [OpDeleteRecurse (_key service_name (i +:+ "/") None)])).
Proof. reflexivity. Qed.

(** After [destroy_instance] nothing of the instance is found: no
    certificate, for no host, no upstream server, no block, no ACL and
    no swap pointer; a key that does not begin with the prefix of the
    instance is as before. *)
Theorem destroy_instance_clears i c :
  (∀ host,
     fst (get_certificate service_name i host
            (kv_client (snd (destroy_instance service_name i c))))
     = Raise CertificateNotFoundError) ∧
  (∀ u,
     fst (list_upstream service_name i u
            (kv_client (snd (destroy_instance service_name i c)))) = Ok ∅) ∧
  (∀ bn,
     fst (list_blocks service_name i bn
            (kv_client (snd (destroy_instance service_name i c)))) = Ok []) ∧
  (∀ src,
     fst (find_acl_network service_name i src
            (kv_client (snd (destroy_instance service_name i c)))) = Ok []) ∧
  swap_pointer service_name (kv_client (snd (destroy_instance service_name i c))) i
    = None ∧
  (∀ k,
     String.prefix (_key service_name (i +:+ "/") None) k = false →
     KV.get k (store (kv_client (snd (destroy_instance service_name i c))))
     = KV.get k (store (kv_client c))).
Proof.
  rewrite destroy_instance_run. cbn [snd kv_client].
  assert (∀ s, truthy s = true →
            KV.get (_key service_name i (Some s))
              (KV.delete_recurse (_key service_name (i +:+ "/") None)
                 (store (kv_client c))) = None) as Hgone.
  { intros s Hs. by rewrite get_delete_recurse, _key_below_instance. }
  assert (∀ s, truthy s = true →
            KV.get_recurse (_key service_name i (Some s))
              (KV.delete_recurse (_key service_name (i +:+ "/") None)
                 (store (kv_client c))) = []) as Hnone.
  { intros s Hs. apply get_recurse_delete_recurse. intros k.
    apply prefix_trans. by apply _key_below_instance. }
  repeat split.
  - intros host. unfold get_certificate. run.
    by rewrite get_delete_recurse, _ssl_cert_path_below_instance.
  - intros u. rewrite list_upstream_absent; [done|]. cbn [store]. by apply Hgone.
  - intros bn. rewrite list_blocks_run. cbn [store].
    unfold _block_key.
    destruct bn as [b|]; [destruct (truthy b)|]; by rewrite Hnone.
  - intros src. destruct (find_acl_network_run service_name i src
      (Client (KV.delete_recurse (_key service_name (i +:+ "/") None)
                 (store (kv_client c))) (calls (kv_client c)))) as [-> _].
    cbn [store]. unfold _acl_key.
    destruct (_normalize_acl_src src) as [s|]; [destruct (truthy s)|];
      by rewrite Hnone.
  - unfold swap_pointer. cbn [store]. by apply Hgone.
  - intros k Hk. cbn [store]. by rewrite get_delete_recurse, Hk.
Qed.

(** For an instance [a] swapped with a peer [b] whose swap key does not
    begin with the key prefix of [a] (the prefix that [destroy_instance]
    deletes below), [destroy_instance] of [a] removes the pointer of [a]
    and leaves the pointer of [b]: the peer still points at the
    destroyed instance, and a swap of the peer with an instance [x] that
    has no pointer after the deletion, the destroyed one included,
    raises the conflict error, in either order of the arguments. *)
Theorem destroy_instance_leaves_peer a b x c :
  Swapped service_name (kv_client c) a b →
  String.prefix (_key service_name (a +:+ "/") None)
    (_key service_name b (Some "swap")) = false →
  swap_pointer service_name (kv_client (snd (destroy_instance service_name a c))) x
    = None →
  swap_pointer service_name (kv_client (snd (destroy_instance service_name a c))) a
    = None ∧
  swap_pointer service_name (kv_client (snd (destroy_instance service_name a c))) b
    = Some a ∧
  fst (swap_instances service_name b x
         (kv_client (snd (destroy_instance service_name a c))))
    = Raise InstanceAlreadySwappedError ∧
  fst (swap_instances service_name x b
         (kv_client (snd (destroy_instance service_name a c))))
    = Raise InstanceAlreadySwappedError.
Proof.
  intros [_ Hb] Hpre Hx.
  rewrite destroy_instance_run in *. cbn [snd kv_client] in *.
  assert (KV.get (_key service_name b (Some "swap"))
            (KV.delete_recurse (_key service_name (a +:+ "/") None)
               (store (kv_client c))) = Some a) as Hb'.
  { by rewrite get_delete_recurse, Hpre. }
  unfold swap_pointer in *. cbn [store] in *.
  split; [by rewrite get_delete_recurse, _key_below_instance|].
  split; [done|].
  split; unfold swap_instances, check_swap_state; run; by rewrite Hb', Hx.
Qed.

End InstanceSubtree.

Section Nodes.

Variable service_name : string.

Implicit Types (i h kt server : string).

Lemma remove_node_run i server host c :
  remove_node service_name i server host c
  = (Ok tt,
     Cluster (Client (KV.delete_recurse (_ssl_cert_path service_name i "" host)
                        (KV.delete (_server_status_key service_name i (Some server))
                           (store (kv_client c))))
                     (calls (kv_client c)
                        ++ [OpDelete (_server_status_key service_name i (Some server))]))
             ((cluster_calls c
                 ++ [OpDeleteRecurse (_ssl_cert_path service_name i "" host)])
                ++ [OpForceLeave server])).
Proof. reflexivity. Qed.

Lemma _server_status_key_not_default_cert i server kt :
  String.prefix "/" kt = false →
  _server_status_key service_name i (Some server)
  ≠ _ssl_cert_path service_name i kt None.
Proof.
  intros Hkt. rewrite (_ssl_cert_path_default service_name i kt Hkt).
  unfold _server_status_key, _key.
  destruct (truthy server); [change (truthy ("status/" +:+ server)) with true|];
    cbn match; intros H; apply String.app_inj in H; discriminate H.
Qed.

(** The default certificate is not in the subtree of a host. *)
Lemma default_cert_not_below_host i h kt :
  truthy h = true → String.prefix "/" kt = false → str_in "/" kt = false →
  String.prefix (_ssl_cert_path service_name i "" (Some h))
    (_ssl_cert_path service_name i kt None) = false.
Proof.
  intros Hh Hkt Hsl.
  destruct (_ssl_cert_path_host service_name i "" h Hh eq_refl) as (r & -> & Hr & _).
  rewrite (_ssl_cert_path_default service_name i kt Hkt).
  rewrite prefix_app_cancel, (prefix_app_cancel "/ssl/").
  destruct (String.prefix r kt) eqn:Hp; [|done].
  by rewrite (str_in_prefix "/" r kt Hr Hp) in Hsl.
Qed.

(** [remove_node] with a host id deletes the status of the server and
    the certificate of the host, asks the agent to drop the server, and
    leaves the default certificate of the instance as it is. *)
Theorem remove_node_host i server h c :
  truthy h = true →
  fst (remove_node service_name i server (Some h) c) = Ok tt ∧
  cluster_calls (snd (remove_node service_name i server (Some h) c))
    = cluster_calls c
        ++ [OpDeleteRecurse (_ssl_cert_path service_name i "" (Some h));
            OpForceLeave server] ∧
  KV.get (_server_status_key service_name i (Some server))
    (store (kv_client (snd (remove_node service_name i server (Some h) c)))) = None ∧
  fst (get_certificate service_name i (Some h)
         (kv_client (snd (remove_node service_name i server (Some h) c))))
    = Raise CertificateNotFoundError ∧
  fst (get_certificate service_name i None
         (kv_client (snd (remove_node service_name i server (Some h) c))))
    = fst (get_certificate service_name i None (kv_client c)).
Proof.
  intros Hh. rewrite remove_node_run. cbn [fst snd kv_client cluster_calls].
  split; [done|]. split; [by rewrite <- app_assoc|]. split; [|split].
  - cbn [store]. rewrite get_delete_recurse, get_delete_eq.
    by destruct (String.prefix _ _).
  - unfold get_certificate. run. rewrite get_delete_recurse.
    destruct (_ssl_cert_path_host service_name i "cert" h Hh eq_refl)
      as (_ & _ & _ & ->). done.
  - apply get_certificate_gets; cbn [store]; rewrite get_delete_recurse,
      default_cert_not_below_host, get_delete_ne; try done;
      by apply _server_status_key_not_default_cert.
Qed.

(** [remove_node] without a host id deletes the whole [ssl] subtree of
    the instance: afterwards no certificate is found, neither the
    default one nor the one of any host. *)
Theorem remove_node_without_host i server host c :
  fst (get_certificate service_name i host
         (kv_client (snd (remove_node service_name i server None c))))
  = Raise CertificateNotFoundError.
Proof.
  rewrite remove_node_run. cbn [snd kv_client].
  unfold get_certificate. run. rewrite get_delete_recurse.
  assert (String.prefix (_ssl_cert_path service_name i "" None)
            (_ssl_cert_path service_name i "cert" host) = true) as ->; [|done].
  rewrite (_ssl_cert_path_default service_name i "" eq_refl).
  assert (∃ r, _ssl_cert_path service_name i "cert" host
               = (service_name +:+ "/" +:+ i) +:+ "/ssl/" +:+ r) as [r ->].
  { destruct host as [h|]; [destruct (truthy h) eqn:Hh|].
    - destruct (_ssl_cert_path_host service_name i "cert" h Hh eq_refl)
        as (r & -> & _). by exists r.
    - exists "cert". change (_ssl_cert_path service_name i "cert" (Some h))
        with (if truthy h
              then os_path_join (_key service_name i (Some ("ssl/" +:+ h))) "cert"
              else _ssl_cert_path service_name i "cert" None).
      rewrite Hh. by rewrite _ssl_cert_path_default.
    - exists "cert". by rewrite _ssl_cert_path_default. }
  rewrite prefix_app_cancel, (prefix_app_cancel "/ssl/"). apply prefix_nil.
Qed.

(** After [store_acl_network] and [remove_acl_network] of the same
    source, the key of the source is absent and the store is the one
    before without that key; when no key began with the key of the
    source, [find_acl_network] of the source finds nothing. *)
Theorem remove_acl_network_after_store set_order i src dst st :
  KV.get (_acl_key service_name i (_normalize_acl_src (Some src)))
    (store (snd (remove_acl_network service_name i src
                   (snd (store_acl_network service_name set_order i src dst st)))))
    = None ∧
  store (snd (remove_acl_network service_name i src
                (snd (store_acl_network service_name set_order i src dst st))))
    = KV.delete (_acl_key service_name i (_normalize_acl_src (Some src))) (store st) ∧
  (KV.get_recurse (_acl_key service_name i (_normalize_acl_src (Some src))) (store st)
     = [] →
   fst (find_acl_network service_name i (Some src)
          (snd (remove_acl_network service_name i src
                  (snd (store_acl_network service_name set_order i src dst st)))))
     = Ok []).
Proof.
  destruct (store_acl_network_run service_name set_order i src dst st) as [_ Hs].
  assert (store (snd (remove_acl_network service_name i src
                        (snd (store_acl_network service_name set_order i src dst st))))
          = KV.delete (_acl_key service_name i (_normalize_acl_src (Some src)))
              (store st)) as Hr.
  { unfold remove_acl_network. run. rewrite Hs. apply delete_put. }
  split; [rewrite Hr; apply get_delete_eq|]. split; [exact Hr|].
  intros Hfresh.
  destruct (find_acl_network_run service_name i (Some src)
              (snd (remove_acl_network service_name i src
                      (snd (store_acl_network service_name set_order i src dst st)))))
    as [-> _].
  by rewrite Hr, get_recurse_delete, Hfresh.
Qed.

(** When each of two distinct instances points at itself, the check of
    [swap_instances] passes and the swap writes both pointers: the pair
    is Swapped afterwards. *)
Theorem swap_self_pointing a b st :
  a ≠ b → SelfPointing service_name st a b →
  fst (swap_instances service_name a b st) = Ok tt ∧
  Swapped service_name (snd (swap_instances service_name a b st)) a b.
Proof.
  intros Hne [Ha Hb].
  assert (fst (swap_instances service_name a b st) = Ok tt ∧
          store (snd (swap_instances service_name a b st))
          = KV.put (_key service_name b (Some "swap")) a
              (KV.put (_key service_name a (Some "swap")) b (store st))) as [Hr Hs].
  { unfold swap_instances, check_swap_state, swap_pointer in *. run.
    rewrite Ha, Hb. cbn.
    rewrite sorted_pair_check, bool_decide_eq_true_2 by auto. cbn.
    rewrite Ha. apply String.eqb_neq in Hne. by rewrite Hne. }
  split; [done|]. by apply (swapped_after_puts service_name a b (store st)).
Qed.

End Nodes.

Lemma delete_certificate_keeps_host_witness :
  truthy "host-a" = true ∧
  fst (get_certificate "test-suite-rpaas" "myrpaas" (Some "host-a")
         (snd (delete_certificate "test-suite-rpaas" "myrpaas"
                 (snd (set_certificate "test-suite-rpaas" "myrpaas" "cert" "key"
                         (Some "host-a") (Client KV.empty []))))))
    = Ok ("cert", "key").
Proof.
  split; [reflexivity|].
  rewrite (delete_certificate_keeps_host "test-suite-rpaas" "myrpaas" "host-a"
             (snd (set_certificate "test-suite-rpaas" "myrpaas" "cert" "key"
                     (Some "host-a") (Client KV.empty []))) eq_refl).
  reflexivity.
Defined.

Lemma delete_certificate_other_instance_witness :
  "myrpaas" ≠ "myrpaas2" ∧
  fst (get_certificate "test-suite-rpaas" "myrpaas" None
         (snd (delete_certificate "test-suite-rpaas" "myrpaas2"
                 (snd (set_certificate "test-suite-rpaas" "myrpaas" "cert" "key" None
                         (Client KV.empty []))))))
    = Ok ("cert", "key").
Proof.
  assert ("myrpaas" ≠ "myrpaas2") as Hne by discriminate.
  split; [exact Hne|].
  rewrite (delete_certificate_other_instance "test-suite-rpaas" "myrpaas" "myrpaas2"
             (snd (set_certificate "test-suite-rpaas" "myrpaas" "cert" "key" None
                     (Client KV.empty []))) Hne).
  reflexivity.
Defined.

Lemma destroy_instance_leaves_peer_witness :
  Swapped "rpaas"
    (kv_client (Cluster (Client [("rpaas/a/swap", "b"); ("rpaas/b/swap", "a")] []) []))
    "a" "b" ∧
  String.prefix (_key "rpaas" ("a" +:+ "/") None) (_key "rpaas" "b" (Some "swap"))
    = false ∧
  fst (swap_instances "rpaas" "b" "a"
         (kv_client (snd (destroy_instance "rpaas" "a"
            (Cluster (Client [("rpaas/a/swap", "b"); ("rpaas/b/swap", "a")] []) [])))))
    = Raise InstanceAlreadySwappedError.
Proof.
  assert (Swapped "rpaas"
            (kv_client (Cluster (Client [("rpaas/a/swap", "b"); ("rpaas/b/swap", "a")]
                                        []) [])) "a" "b")
    as Hsw by (split; reflexivity).
  split; [exact Hsw|]. split; [reflexivity|].
  exact (proj1 (proj2 (proj2
    (destroy_instance_leaves_peer "rpaas" "a" "b" "a"
       (Cluster (Client [("rpaas/a/swap", "b"); ("rpaas/b/swap", "a")] []) [])
       Hsw eq_refl eq_refl)))).
Defined.

Lemma remove_node_host_witness :
  truthy "test-server-id" = true ∧
  fst (remove_node "test-suite-rpaas" "myrpaas" "test-server" (Some "test-server-id")
         (Cluster (Client [("test-suite-rpaas/myrpaas/ssl/cert", "cert");
                           ("test-suite-rpaas/myrpaas/ssl/test-server-id/cert", "cert");
                           ("test-suite-rpaas/myrpaas/status/test-server", "service OK")]
                          []) [])) = Ok tt.
Proof.
  split; [reflexivity|].
  exact (proj1 (remove_node_host "test-suite-rpaas" "myrpaas" "test-server"
                  "test-server-id" _ eq_refl)).
Defined.

Lemma remove_acl_network_after_store_witness :
  KV.get_recurse (_acl_key "test-suite-rpaas" "myrpaas"
                    (_normalize_acl_src (Some "10.0.0.1/32")))
    (store (Client KV.empty [])) = [] ∧
  fst (find_acl_network "test-suite-rpaas" "myrpaas" (Some "10.0.0.1/32")
         (snd (remove_acl_network "test-suite-rpaas" "myrpaas" "10.0.0.1/32"
                 (snd (store_acl_network "test-suite-rpaas" elements "myrpaas"
                         "10.0.0.1/32" "192.168.0.0/24" (Client KV.empty []))))))
    = Ok [].
Proof.
  split; [reflexivity|].
  exact (proj2 (proj2 (remove_acl_network_after_store "test-suite-rpaas" elements
           "myrpaas" "10.0.0.1/32" "192.168.0.0/24" (Client KV.empty []))) eq_refl).
Defined.

Lemma swap_self_pointing_witness :
  "a" ≠ "b" ∧
  SelfPointing "rpaas" (Client [("rpaas/a/swap", "a"); ("rpaas/b/swap", "b")] [])
    "a" "b" ∧
  Swapped "rpaas"
    (snd (swap_instances "rpaas" "a" "b"
            (Client [("rpaas/a/swap", "a"); ("rpaas/b/swap", "b")] []))) "a" "b".
Proof.
  assert ("a" ≠ "b") as Hne by discriminate.
  assert (SelfPointing "rpaas"
            (Client [("rpaas/a/swap", "a"); ("rpaas/b/swap", "b")] []) "a" "b")
    as Hself by (split; reflexivity).
  split; [exact Hne|]. split; [exact Hself|].
  exact (proj2 (swap_self_pointing "rpaas" "a" "b" _ Hne Hself)).
Defined.

(** The source that [find_acl_network] reports for a key segment, a
    non-empty string without ["/"], is encoded back to that segment: a
    reported source addresses the key it was read from. *)
Theorem acl_segment_roundtrip e :
  truthy e = true → str_in "/" e = false →
  _normalize_acl_src (_normalize_acl_src (Some e)) = Some e.
Proof.
  intros He Hsl. rewrite (_normalize_acl_src_nonempty e He).
  destruct (str_in "_" e) eqn:Hu.
  - rewrite _normalize_acl_src_nonempty by by rewrite replace_char_truthy.
    rewrite (replace_char_gone "_" "/" e) by done.
    by rewrite (replace_char_roundtrip "_" "/" e Hsl).
  - rewrite (replace_char_absent "/" "_" e Hsl).
    rewrite (_normalize_acl_src_nonempty e He), Hu.
    by rewrite (replace_char_absent "/" "_" e Hsl).
Qed.

Lemma acl_segment_roundtrip_witness :
  truthy "10.0.0.1_32" = true ∧ str_in "/" "10.0.0.1_32" = false ∧
  _normalize_acl_src (Some "10.0.0.1_32") = Some "10.0.0.1/32" ∧
  _normalize_acl_src (_normalize_acl_src (Some "10.0.0.1_32")) = Some "10.0.0.1_32".
Proof.
  split; [reflexivity|]. split; [reflexivity|]. split; [reflexivity|].
  exact (acl_segment_roundtrip "10.0.0.1_32" eq_refl eq_refl).
Defined.

(** After [destroy_instance] the healthcheck of the instance and the
    location of every path are absent, whatever was written before. *)
Theorem destroy_instance_removes_healthcheck_and_locations service_name i c :
  KV.get (_key service_name i (Some "healthcheck"))
    (store (kv_client (snd (destroy_instance service_name i c)))) = None ∧
  (∀ path,
     KV.get (_location_key service_name i path)
       (store (kv_client (snd (destroy_instance service_name i c)))) = None) ∧
  KV.get (_key service_name i (Some "healthcheck"))
    (store (kv_client (snd (destroy_instance service_name i
       (Cluster (snd (write_healthcheck service_name i (kv_client c)))
                (cluster_calls c)))))) = None.
Proof.
  rewrite !destroy_instance_run. cbn [snd kv_client store].
  split; [|split].
  - by rewrite get_delete_recurse, _key_below_instance.
  - intros path. rewrite get_delete_recurse.
    change (_location_key service_name i path)
      with (_key service_name i
              (Some ("locations/" +:+
                       (if negb (String.eqb path "/")
                        then replace "/" "___" path else "ROOT")))).
    by rewrite _key_below_instance.
  - by rewrite get_delete_recurse, _key_below_instance.
Qed.

(** The healthcheck key holds ["true"] once written, and removing it
    leaves the store as it was without that key. *)
Lemma healthcheck_write_remove service_name i st :
  KV.get (_key service_name i (Some "healthcheck"))
    (store (snd (write_healthcheck service_name i st))) = Some "true" ∧
  store (snd (remove_healthcheck service_name i
                (snd (write_healthcheck service_name i st))))
  = KV.delete (_key service_name i (Some "healthcheck")) (store st).
Proof.
  unfold write_healthcheck, remove_healthcheck. run.
  split; [apply get_put_eq|apply delete_put].
Qed.
